(** * Bulk operations of [DataViewSet]: filter resolution and bulk delete

    A shallow embedding of [onadata/apps/api/viewsets/data_viewset.py]:
    the private helper [__build_db_queries], which turns a request payload
    into a PostgreSQL filter and a MongoDB filter, and [bulk_delete], which
    suspends three Django signal receivers around the deletion in both
    stores.

    Further down come the other actions of the view set
    ([bulk_validation_status], [labels], [validation_status], the Enketo
    links, the lookups of forms and submissions) and the management
    command [update_attachment_storage_bytes].

    Python dictionaries are finite maps ([gmap string _]): the code only
    looks keys up, filters and updates them, so the insertion order of keys
    is not tracked.  Code that raises is a computation returning [Raise e];
    code that touches the request object, the signal registry or a store is
    a state-passing computation over [world]. *)

From stdpp Require Import gmap strings list fin_maps sorting.
From Stdlib Require Import ZArith QArith Ascii.

#[local] Open Scope Z_scope.
#[local] Set Warnings "-register-all".

(** ** JSON values, as found in [request.data] *)

(** A finite float is carried as the rational it denotes: the code only
    tests floats for zero and truncates them with [int()]. *)
Inductive json : Type :=
| JNull
| JBool (b : bool)
| JInt (n : Z)
| JFloat (q : Q)
| JStr (s : string)
| JList (l : list json)
| JDict (d : gmap string json).

(** [dict] is the type of a Python dictionary with string keys. *)
Abbreviation dict := (gmap string json).

(** Python's truth value of an object ([if value_]). *)
Definition truthy (v : json) : bool :=
  match v with
  | JNull => false
  | JBool b => b
  | JInt n => negb (n =? 0)
  | JFloat q => negb (Qnum q =? 0)
  | JStr s => negb (String.eqb s "")
  | JList l => negb (Nat.eqb (length l) 0)
  | JDict d => negb (Nat.eqb (size d) 0)
  end.

(** [value is True]: identity with the singleton [True]. *)
Definition is_True (v : json) : bool :=
  match v with
  | JBool true => true
  | _ => false
  end.

(** ** Exceptions and results *)

(** The [detail] of the three [ValidationError]s the resolver raises; the
    message embeds [json.dumps] of the offending value, kept here as the
    value itself. *)
Inductive validation_detail : Type :=
| QueryAndIdsTogether
| InvalidQuery (query : json)
| InvalidSubmissionIds (submission_ids : json).

Inductive exn : Type :=
| ValidationError (payload : validation_detail)
| NoConfirmationProvidedException
| ParseError (msg : string)
| ValueError
| TypeError
| CollaboratorError (msg : string).

Inductive result (A : Type) : Type :=
| Ok (a : A)
| Raise (e : exn).
Arguments Ok {A} a.
Arguments Raise {A} e.

Definition result_bind {A B} (r : result A) (k : A → result B) : result B :=
  match r with
  | Ok a => k a
  | Raise e => Raise e
  end.

(** A list comprehension [[f(x) for x in l]] whose body may raise: the
    first exception, in iteration order, aborts it. *)
Fixpoint comprehension {A B} (f : A → result B) (l : list A) : result (list B) :=
  match l with
  | [] => Ok []
  | x :: l' =>
      result_bind (f x) (λ y,
      result_bind (comprehension f l') (λ ys, Ok (y :: ys)))
  end.

(** ** Python built-ins used by the resolver *)

Section Builtins.
(** [int(s)] on a string: [None] stands for [ValueError]. *)
Variable int_of_str : string → option Z.

(** [int(value)]. *)
Definition py_int (v : json) : result Z :=
  match v with
  | JBool b => Ok (if b then 1 else 0)
  | JInt n => Ok n
  | JFloat q => Ok (Z.quot (Qnum q) (Z.pos (Qden q)))
  | JStr s =>
      match int_of_str s with
      | Some n => Ok n
      | None => Raise ValueError
      end
  | JNull | JList _ | JDict _ => Raise TypeError
  end.

(** The elements [for x in value] visits: the items of a list, the
    characters of a string, the keys of a dictionary (in the order of the
    finite map, not of insertion). *)
Definition py_iter (v : json) : result (list json) :=
  match v with
  | JList l => Ok l
  | JStr s => Ok ((λ c, JStr (String c "")) <$> String.list_ascii_of_string s)
  | JDict d => Ok ((λ kv, JStr kv.1) <$> map_to_list d)
  | JNull | JBool _ | JInt _ | JFloat _ => Raise TypeError
  end.
End Builtins.

(** ** Django's signal dispatcher *)

Module Signals.
(** The model classes used as [sender]. *)
Inductive model : Type := Instance | ParsedInstance.

(** The receivers of the repository this view set handles, and any
    other receiver a registry may hold. *)
Inductive receiver : Type :=
| _remove_from_mongo
| nullify_exports_time_of_last_submission
| update_xform_submission_count_delete
| other_receiver (name : string).

Inductive receiver_id : Type :=
| id_of (r : receiver)
| uid (dispatch_uid : string).

#[global] Instance model_eq_dec : EqDecision model.
Proof. solve_decision. Defined.
#[global] Instance receiver_eq_dec : EqDecision receiver.
Proof. solve_decision. Defined.
#[global] Instance receiver_id_eq_dec : EqDecision receiver_id.
Proof. solve_decision. Defined.

(** [lookup_key = (dispatch_uid or id(receiver), id(sender))]. *)
Definition lookup_key : Type := receiver_id * option model.

#[global] Instance lookup_key_eq_dec : EqDecision lookup_key.
Proof. unfold lookup_key. apply _. Defined.

Definition make_key (r : receiver) (sender : option model)
    (dispatch_uid : option string) : lookup_key :=
  match dispatch_uid with
  | Some u => (uid u, sender)
  | None => (id_of r, sender)
  end.

(** [Signal.receivers]. *)
Definition signal : Type := list (lookup_key * receiver).

Definition has_key (k : lookup_key) (s : signal) : bool :=
  existsb (λ e, bool_decide (e.1 = k)) s.

(** [Signal.connect]: appends unless the key is already registered. *)
Definition connect (r : receiver) (sender : option model)
    (dispatch_uid : option string) (s : signal) : signal :=
  let k := make_key r sender dispatch_uid in
  if has_key k s then s else s ++ [(k, r)].

(** The loop of [Signal.disconnect]: deletes the first entry with the
    key and stops. *)
Fixpoint remove_first (k : lookup_key) (s : signal) : signal :=
  match s with
  | [] => []
  | e :: s' => if bool_decide (e.1 = k) then s' else e :: remove_first k s'
  end.

Definition disconnect (r : receiver) (sender : option model)
    (dispatch_uid : option string) (s : signal) : signal :=
  remove_first (make_key r sender dispatch_uid) s.

(** [Signal._live_receivers(sender)]: the receivers registered for this
    sender or for every sender. *)
Definition live_receivers (sender : model) (s : signal) : list receiver :=
  snd <$> filter (λ e, e.1.2 = None ∨ e.1.2 = Some sender) s.

(** The two signals of [django.db.models.signals] the view set uses. *)
Record registry : Type := Registry {
  pre_delete : signal;
  post_delete : signal
}.
End Signals.

(** ** The form, the world and the collaborators *)

(** [xform_.user]. *)
Record User : Type := { username : string }.

(** The attributes of an [XForm] the view set reads. *)
Module XForm.
Record t : Type := {
  id : Z;
  id_string : string;
  user : User
}.
End XForm.

(** What the view set asks of a collaborator, in call order. *)
Inductive event : Type :=
| MongoFind (query : json) (fields : list string)
| InstanceFilterDelete (filters : gmap string json)
| MongoBulkDelete (query : gmap string json)
| NullifyExportsTime (xform : XForm.t)
| UpdateSubmissionCount (xform : XForm.t) (value : Z)
| LoggingWarning (msg : string)
| RowDelete (pk : Z)
| ReceiverRan (r : Signals.receiver) (sender : Signals.model).

(** The code of the repository and of its libraries that is called from
    the view set and lies outside it.  [Store] is the content of the two
    stores; a collaborator that fails returns [Raise]. *)
Class Collaborators (Store : Type) : Type := {
  (** [int(s)] on a string, [None] for [ValueError]. *)
  int_of_str : string → option Z;
  (** The value [ParsedInstance.get_base_query] derives from the owner's
      username and the form's [id_string]. *)
  userform_id : string → string → json;
  (** [Instance._meta.app_label]. *)
  app_label : string;
  (** [ParsedInstance.query_mongo_no_paging(query, fields)]: a read. *)
  query_mongo_no_paging :
    Store → json → list string → result (list (gmap string json));
  (** [Instance.objects.filter(...).delete()] with the filters as keyword
      arguments. *)
  instance_filter_delete :
    Store → gmap string json → result (Z * gmap string Z) * Store;
  (** [ParsedInstance.bulk_delete(query)]. *)
  parsed_instance_bulk_delete :
    Store → gmap string json → result unit * Store;
  (** The receivers, called directly with [instance=xform]. *)
  run_nullify_exports_time_of_last_submission :
    Store → XForm.t → result unit * Store;
  run_update_xform_submission_count_delete :
    Store → XForm.t → Z → result unit * Store;
  (** A receiver, called by a signal sent for the row [pk] of [sender]. *)
  run_receiver :
    Store → Signals.receiver → Signals.model → Z → result unit * Store;
  (** The SQL [DELETE] of [Model.delete()] for the row [pk] of [Instance]
      and the rows that cascade from it. *)
  delete_rows : Store → Z → result unit * Store
}.

(** [ParsedInstance.USERFORM_ID]. *)
Definition USERFORM_ID : string := "_userform_id".

Section Effects.
Context {Store : Type}.

(** Everything a request can read or change: the payload object
    [request.data], the process-wide signal registry, the stores, and
    the calls made so far. *)
Record world : Type := World {
  request_data : gmap string json;
  signals : Signals.registry;
  store : Store;
  trace : list event
}.

(** A computation that may raise and may change the world; the world a
    raise leaves behind is kept. *)
Definition M (A : Type) : Type := world → result A * world.

Definition ret {A} (a : A) : M A := λ w, (Ok a, w).
Definition raise {A} (e : exn) : M A := λ w, (Raise e, w).
Definition bind {A B} (c : M A) (k : A → M B) : M B := λ w,
  match c w with
  | (Ok a, w') => k a w'
  | (Raise e, w') => (Raise e, w')
  end.

(** [try: body finally: cleanup]. *)
Definition try_finally {A} (body : M A) (cleanup : M unit) : M A := λ w,
  let '(r, w1) := body w in
  match cleanup w1 with
  | (Ok _, w2) => (r, w2)
  | (Raise e, w2) => (Raise e, w2)
  end.

Definition log (e : event) : M unit := λ w,
  (Ok (), World (request_data w) (signals w) (store w) (trace w ++ [e])).

(** A call that reads the stores. *)
Definition read_store {A} (e : event) (f : Store → result A) : M A := λ w,
  (f (store w), World (request_data w) (signals w) (store w) (trace w ++ [e])).

(** A call that may change the stores. *)
Definition write_store {A} (e : event) (f : Store → result A * Store) : M A :=
  λ w,
  let '(r, st) := f (store w) in
  (r, World (request_data w) (signals w) st (trace w ++ [e])).

Definition get_request_data : M (gmap string json) := λ w, (Ok (request_data w), w).

(** An in-place update of the object held under [key] of [request.data]. *)
Definition mutate_request_value (key : string) (v : json) : M unit := λ w,
  (Ok (), World (<[key := v]> (request_data w)) (signals w) (store w) (trace w)).

Definition on_signals (f : Signals.registry → Signals.registry) : M unit := λ w,
  (Ok (), World (request_data w) (f (signals w)) (store w) (trace w)).
End Effects.

Arguments world : clear implicits.
Arguments M : clear implicits.

Declare Scope py_scope.
Delimit Scope py_scope with py.
Notation "'let!' x ':=' c 'in' k" := (bind c (λ x, k))
  (at level 10, x name, c at level 100, k at level 200) : py_scope.
Notation "'let!' ' p ':=' c 'in' k" := (bind c (λ x, match x with p => k end))
  (at level 10, p pattern, c at level 100, k at level 200) : py_scope.

(** ** The view set *)

(** The two dictionaries [__build_db_queries] returns. *)
Definition queries : Type := gmap string json * gmap string json.

(** [HTTP_200_OK] with [detail] "<n> submissions have been deleted", or
    [HTTP_204_NO_CONTENT]. *)
Inductive response : Type :=
| SubmissionsDeleted (deleted_records_count : Z)
| NoContent.

(** What [get_object] returns on the single-submission routes. *)
Inductive lookup_object : Type :=
| AnXForm (xform : XForm.t)
| AnInstance (pk : Z).

Section DataViewSet.
Context {Store : Type} {site : Collaborators Store}.
#[local] Open Scope py_scope.

(** Modelled from the spec: [ParsedInstance.get_base_query] is not in the
    sources at hand.  It is the scope of a form, "a document-store
    scoping key derived from owner username and form identifier
    string"; the key is the [_userform_id] the resolver's comment
    names. *)
Definition get_base_query (username_ id_string_ : string) : gmap string json :=
  {[ USERFORM_ID := userform_id username_ id_string_ ]}.

(** The dictionary comprehension that removes empty values. *)
Definition remove_empty_values (request_data_ : gmap string json) : gmap string json :=
  filter (λ kv, truthy kv.2) request_data_.

(** [[record.get('_id') for record in list(cursor)]]. *)
Definition record_ids (cursor : list (gmap string json)) : list json :=
  (λ record, default JNull (record !! "_id")) <$> cursor.

(** [[int(submission_id) for submission_id in submission_ids]]. *)
Definition int_submission_ids (submission_ids : json) : result (list Z) :=
  result_bind (py_iter submission_ids) (comprehension (py_int int_of_str)).

(** [DataViewSet.__build_db_queries(xform_, request_data)], with
    [request_data] the payload object of the world. *)
Definition build_db_queries (xform_ : XForm.t) : M Store queries :=
  let! request_data_ := get_request_data in
  let mongo_query :=
    get_base_query (username (XForm.user xform_)) (XForm.id_string xform_) in
  let postgres_query : gmap string json := {[ "xform_id" := JInt (XForm.id xform_) ]} in
  let payload := remove_empty_values request_data_ in
  if bool_decide (is_Some (payload !! "query"))
     && bool_decide (is_Some (payload !! "submission_ids"))
  then raise (ValidationError QueryAndIdsTogether)
  else
    (* First scenario / Get submissions based on user's query *)
    let! instance_ids :=
      match payload !! "query" with
      | None => ret None
      | Some (JDict query) =>
          (* query.update(mongo_query), on the object of the payload *)
          let query' := mongo_query ∪ query in
          let! _ := mutate_request_value "query" (JDict query') in
          let! cursor :=
            read_store (MongoFind (JDict query') ["_id"%string])
              (λ st, query_mongo_no_paging st (JDict query') ["_id"%string]) in
          ret (Some (record_ids cursor))
      | Some query => raise (ValidationError (InvalidQuery query))
      end in
    (* Second scenario / Get submissions based on list of ids *)
    let! instance_ids :=
      match payload !! "submission_ids" with
      | None => ret instance_ids
      | Some submission_ids =>
          match int_submission_ids submission_ids with
          | Ok ids => ret (Some (JInt <$> ids))
          | Raise ValueError =>
              raise (ValidationError (InvalidSubmissionIds submission_ids))
          | Raise e => raise e
          end
      end in
    match instance_ids with
    | Some ids =>
        (* Narrow down queries with list of ids. *)
        ret (<["id__in" := JList ids]> postgres_query,
             <["_id" := JDict {[ "$in" := JList ids ]}]> mongo_query)
    | None =>
        (* Third scenario / get all submissions in form *)
        if is_True (default (JBool false) (payload !! "confirm"))
        then ret (postgres_query, mongo_query)
        else raise NoConfirmationProvidedException
    end.

(** *** Suspending and restoring the receivers *)

Import Signals.

Definition pre_delete_disconnect (r : receiver) (sender : model)
    (dispatch_uid : option string) : M Store unit :=
  on_signals (λ reg,
    Registry (disconnect r (Some sender) dispatch_uid (pre_delete reg))
             (post_delete reg)).

Definition post_delete_disconnect (r : receiver) (sender : model)
    (dispatch_uid : option string) : M Store unit :=
  on_signals (λ reg,
    Registry (pre_delete reg)
             (disconnect r (Some sender) dispatch_uid (post_delete reg))).

Definition pre_delete_connect (r : receiver) (sender : model)
    (dispatch_uid : option string) : M Store unit :=
  on_signals (λ reg,
    Registry (connect r (Some sender) dispatch_uid (pre_delete reg))
             (post_delete reg)).

Definition post_delete_connect (r : receiver) (sender : model)
    (dispatch_uid : option string) : M Store unit :=
  on_signals (λ reg,
    Registry (pre_delete reg)
             (connect r (Some sender) dispatch_uid (post_delete reg))).

(** The statements of [bulk_delete] before its [try]. *)
Definition disconnect_signals : M Store unit :=
  let! _ := pre_delete_disconnect _remove_from_mongo ParsedInstance None in
  let! _ := post_delete_disconnect
              nullify_exports_time_of_last_submission Instance
              (Some "nullify_exports_time_of_last_submission"%string) in
  post_delete_disconnect
    update_xform_submission_count_delete Instance
    (Some "update_xform_submission_count_delete"%string).

(** The [finally] block of [bulk_delete]. *)
Definition reconnect_signals : M Store unit :=
  let! _ := pre_delete_connect _remove_from_mongo ParsedInstance None in
  let! _ := post_delete_connect
              nullify_exports_time_of_last_submission Instance
              (Some "nullify_exports_time_of_last_submission"%string) in
  post_delete_connect
    update_xform_submission_count_delete Instance
    (Some "update_xform_submission_count_delete"%string).

(** The [try] block of [bulk_delete]. *)
Definition delete_postgres_and_mongo (xform : XForm.t)
    (postgres_query mongo_query : gmap string json) : M Store Z :=
  let! '(all_count, results) :=
    write_store (InstanceFilterDelete postgres_query)
      (λ st, instance_filter_delete st postgres_query) in
  let identifier := (app_label +:+ ".Instance")%string in
  let! deleted_records_count :=
    match results !! identifier with
    | Some n => ret n
    | None =>
        let! _ := log (LoggingWarning "Instance objects cannot be found") in
        ret 0
    end in
  let! _ := write_store (MongoBulkDelete mongo_query)
              (λ st, parsed_instance_bulk_delete st mongo_query) in
  (* Update xform like signals would do *)
  let! _ := write_store (NullifyExportsTime xform)
              (λ st, run_nullify_exports_time_of_last_submission st xform) in
  let! _ := write_store (UpdateSubmissionCount xform deleted_records_count)
              (λ st, run_update_xform_submission_count_delete st xform
                       deleted_records_count) in
  ret deleted_records_count.

(** [DataViewSet.bulk_delete], for the form [get_object] returned. *)
Definition bulk_delete (xform : XForm.t) : M Store response :=
  let! '(postgres_query, mongo_query) := build_db_queries xform in
  let! _ := disconnect_signals in
  let! deleted_records_count :=
    try_finally (delete_postgres_and_mongo xform postgres_query mongo_query)
                reconnect_signals in
  ret (SubmissionsDeleted deleted_records_count).

(** *** Deleting one submission *)

(** [Signal.send]: the live receivers run in order; one that raises
    aborts the rest. *)
Fixpoint run_receivers (rs : list receiver) (sender : model) (pk : Z)
    : M Store unit :=
  match rs with
  | [] => ret ()
  | r :: rs' =>
      let! _ := write_store (ReceiverRan r sender)
                  (λ st, run_receiver st r sender pk) in
      run_receivers rs' sender pk
  end.

Definition send (which : registry → signal) (sender : model) (pk : Z)
    : M Store unit := λ w,
  run_receivers (live_receivers sender (which (signals w))) sender pk w.

(** Django's [Model.delete()] on a row of [Instance]: [pre_delete] for
    the parsed instance that cascades from it and for the row, the
    deletion, then [post_delete] for both. *)
Definition instance_delete (pk : Z) : M Store unit :=
  let! _ := send pre_delete ParsedInstance pk in
  let! _ := send pre_delete Instance pk in
  let! _ := write_store (RowDelete pk) (λ st, delete_rows st pk) in
  let! _ := send post_delete ParsedInstance pk in
  send post_delete Instance pk.

(** [DataViewSet.destroy], for the object [get_object] returned. *)
Definition destroy (instance : lookup_object) : M Store response :=
  match instance with
  | AnXForm _ => raise (ParseError "Data id not provided")
  | AnInstance pk =>
      let! _ := instance_delete pk in
      ret NoContent
  end.
End DataViewSet.

(** ** What the statements below speak of *)

Section Notions.
Import Signals.

(** The receiver [r] is registered under the key the view set connects
    it with. *)
Definition connected (r : receiver) (sender : model)
    (dispatch_uid : option string) (s : signal) : Prop :=
  (make_key r (Some sender) dispatch_uid, r) ∈ s.

(** The three per-row triggers are in place. *)
Definition triggers_connected (reg : registry) : Prop :=
  connected _remove_from_mongo ParsedInstance None (pre_delete reg)
  ∧ connected nullify_exports_time_of_last_submission Instance
      (Some "nullify_exports_time_of_last_submission"%string) (post_delete reg)
  ∧ connected update_xform_submission_count_delete Instance
      (Some "update_xform_submission_count_delete"%string) (post_delete reg).

(** None of the three keys is registered: the triggers are suspended. *)
Definition triggers_suspended (reg : registry) : Prop :=
  has_key (make_key _remove_from_mongo (Some ParsedInstance) None)
    (pre_delete reg) = false
  ∧ has_key (make_key nullify_exports_time_of_last_submission (Some Instance)
      (Some "nullify_exports_time_of_last_submission"%string))
    (post_delete reg) = false
  ∧ has_key (make_key update_xform_submission_count_delete (Some Instance)
      (Some "update_xform_submission_count_delete"%string))
    (post_delete reg) = false.

(** [connect] registers a key once, so a registry built by [connect] and
    [disconnect] has no key twice. *)
Definition registry_wf (reg : registry) : Prop :=
  NoDup (pre_delete reg).*1 ∧ NoDup (post_delete reg).*1.

(** The registry after the three [disconnect] calls. *)
Definition suspend (reg : registry) : registry :=
  Registry
    (disconnect _remove_from_mongo (Some ParsedInstance) None (pre_delete reg))
    (disconnect update_xform_submission_count_delete (Some Instance)
       (Some "update_xform_submission_count_delete"%string)
       (disconnect nullify_exports_time_of_last_submission (Some Instance)
          (Some "nullify_exports_time_of_last_submission"%string)
          (post_delete reg))).

(** The registry after the three [connect] calls. *)
Definition restore (reg : registry) : registry :=
  Registry
    (connect _remove_from_mongo (Some ParsedInstance) None (pre_delete reg))
    (connect update_xform_submission_count_delete (Some Instance)
       (Some "update_xform_submission_count_delete"%string)
       (connect nullify_exports_time_of_last_submission (Some Instance)
          (Some "nullify_exports_time_of_last_submission"%string)
          (post_delete reg))).

(** The registry once the models of the repository are loaded: each
    trigger connected once. *)
Definition loaded_registry : registry :=
  restore (Registry [] []).
End Notions.

Section ViewSetNotions.
Context {Store : Type} {site : Collaborators Store}.

(** The base scope of a form and its relational counterpart. *)
Definition base_query (xform_ : XForm.t) : gmap string json :=
  get_base_query (username (XForm.user xform_)) (XForm.id_string xform_).

Definition form_filter (xform_ : XForm.t) : gmap string json :=
  {[ "xform_id" := JInt (XForm.id xform_) ]}.

(** Both filters narrowed to a list of ids. *)
Definition narrowed (xform_ : XForm.t) (ids : list json) : queries :=
  (<["id__in" := JList ids]> (form_filter xform_),
   <["_id" := JDict {[ "$in" := JList ids ]}]> (base_query xform_)).

(** The world the first scenario leaves: the scope merged into the
    query object of the payload, and one read of the document store. *)
Definition world_after_query (xform_ : XForm.t) (query : gmap string json) w : world Store :=
  World (<["query" := JDict (base_query xform_ ∪ query)]> (request_data w))
        (signals w) (store w)
        (trace w ++ [MongoFind (JDict (base_query xform_ ∪ query)) ["_id"%string]]).

(** A resolution that changes nothing: not the payload, not the
    registry, not a store, and no call to a collaborator. *)
Definition resolver_is_pure (xform_ : XForm.t) (w : world Store) : Prop :=
  (build_db_queries xform_ w).2 = w.

(** Computations that leave the signal registry alone. *)
Definition keeps_signals {A} (c : M Store A) : Prop :=
  ∀ w, signals (c w).2 = signals w.
End ViewSetNotions.

(** ** A concrete deployment, to run the view set on *)

Module Demo.
(** [int()] on ASCII text: surrounding blanks, a sign, decimal digits
    with single underscores between them. *)
Definition is_space (c : ascii) : bool :=
  let n := Ascii.nat_of_ascii c in
  Nat.eqb n 32 || (Nat.leb 9 n && Nat.leb n 13).

Definition digit_of (c : ascii) : option Z :=
  let n := Z.of_nat (Ascii.nat_of_ascii c) in
  if (48 <=? n) && (n <=? 57) then Some (n - 48) else None.

Fixpoint lstrip (s : list ascii) : list ascii :=
  match s with
  | c :: s' => if is_space c then lstrip s' else s
  | [] => []
  end.

Fixpoint digits (acc : Z) (after_digit : bool) (s : list ascii) : option Z :=
  match s with
  | [] => if after_digit then Some acc else None
  | c :: s' =>
      match digit_of c with
      | Some d => digits (10 * acc + d) true s'
      | None =>
          if Ascii.eqb c "_" && after_digit then digits acc false s' else None
      end
  end.

Definition ascii_int (s : string) : option Z :=
  match rev (lstrip (rev (lstrip (String.list_ascii_of_string s)))) with
  | "-"%char :: s' => Z.opp <$> digits 0 false s'
  | "+"%char :: s' => digits 0 false s'
  | s' => digits 0 false s'
  end.

(** The document store: the submissions mirrored in it. *)
Definition documents : Type := list (gmap string json).

(** A document store that answers a query with every document it
    holds and deletes nothing; [mongo_up = false] makes its bulk delete
    fail. *)
Definition deployment (mongo_up : bool) : Collaborators documents := {|
  int_of_str := ascii_int;
  userform_id := λ username_ id_string_,
    JStr (username_ +:+ "_" +:+ id_string_);
  app_label := "logger";
  query_mongo_no_paging := λ st _ fields,
    Ok ((λ doc, filter (λ kv, kv.1 ∈ fields) doc) <$> st);
  instance_filter_delete := λ st _, (Ok (0, ∅), st);
  parsed_instance_bulk_delete := λ st _,
    if mongo_up then (Ok (), st)
    else (Raise (CollaboratorError "connection refused"), st);
  run_nullify_exports_time_of_last_submission := λ st _, (Ok (), st);
  run_update_xform_submission_count_delete := λ st _ _, (Ok (), st);
  run_receiver := λ st _ _ _, (Ok (), st);
  delete_rows := λ st _, (Ok (), st)
|}.

Definition bob : User := {| username := "bob" |}.

Definition survey : XForm.t :=
  {| XForm.id := 7; XForm.id_string := "survey"; XForm.user := bob |}.

Definition docs : documents :=
  [ {[ "_id" := JInt 1; "kind" := JStr "monthly" ]};
    {[ "_id" := JInt 2; "kind" := JStr "weekly" ]} ].

(** A request with the payload [data], in a freshly loaded process. *)
Definition request (data : gmap string json) : world documents :=
  World data loaded_registry docs [].

(** A query on a submitted field, and one that names a scope of its
    own. *)
Definition monthly : gmap string json := {[ "kind" := JStr "monthly" ]}.

Definition monthly_elsewhere : gmap string json :=
  {[ "kind" := JStr "monthly"; "_userform_id" := JStr "eve_census" ]}.

(** What is sent to the document store for either query. *)
Definition monthly_scoped : gmap string json :=
  {[ "kind" := JStr "monthly"; "_userform_id" := JStr "bob_survey" ]}.
End Demo.

(** ** More notions *)

Section MoreNotions.
Context {Store : Type} {site : Collaborators Store}.

(** The world [w] with another payload in the request. *)
Definition with_payload (data : gmap string json) (w : world Store) : world Store :=
  World data (signals w) (store w) (trace w).

(** The value [int()] accepts. *)
Definition converts (v : json) (n : Z) : Prop := py_int int_of_str v = Ok n.

(** What [bulk_delete] logs when PostgreSQL reports no deleted
    [Instance]. *)
Definition missing_count_warning (results : gmap string Z) : list event :=
  match results !! (app_label +:+ ".Instance")%string with
  | Some _ => []
  | None => [LoggingWarning "Instance objects cannot be found"]
  end.

(** [deleted_records_count] of [bulk_delete]. *)
Definition deleted_count (results : gmap string Z) : Z :=
  default 0 (results !! (app_label +:+ ".Instance")%string).
End MoreNotions.

(** ** Bulk update of the validation status *)

(** The code [bulk_validation_status] calls besides the resolver. *)
Class StatusCollaborators (Store : Type) : Type := {
  (** [get_validation_status(uid, xform, username)]: the new status
      object. *)
  get_validation_status :
    Store → json → XForm.t → string → result json;
  (** [Instance.objects.filter(...).update(validation_status=...)]: the
      number of rows updated. *)
  instance_filter_update :
    Store → gmap string json → json → result Z * Store;
  (** [ParsedInstance.bulk_update_validation_statuses(query, status)]. *)
  bulk_update_validation_statuses :
    Store → gmap string json → json → result unit * Store
}.

(** What [bulk_validation_status] raises: its own [ValidationError], "No
    `validation_status.uid` provided", or what the code it calls
    raised. *)
Inductive status_error : Type :=
| NoValidationStatusUid
| Raised (e : exn).

Section BulkValidationStatus.
Context {Store : Type} {site : Collaborators Store}
  {status_site : StatusCollaborators Store}.
#[local] Open Scope py_scope.

(** A call on the stores that the trace keeps no event of. *)
Definition call_store {A} (f : Store → result A * Store) : M Store A := λ w,
  let '(r, st) := f (store w) in
  (r, World (request_data w) (signals w) st (trace w)).

(** [bulk_validation_status] from the creation of the status object on. *)
Definition update_validation_statuses (xform : XForm.t) (real_user : User)
    (new_validation_status_uid : json) : M Store Z :=
  let! new_validation_status :=
    call_store (λ st,
      (get_validation_status st new_validation_status_uid xform
         (username real_user), st)) in
  let! '(postgres_query, mongo_query) := build_db_queries xform in
  (* Update Postgres & Mongo *)
  let! updated_records_count :=
    call_store (λ st,
      instance_filter_update st postgres_query new_validation_status) in
  let! _ :=
    call_store (λ st,
      bulk_update_validation_statuses st mongo_query new_validation_status) in
  ret updated_records_count.

(** [DataViewSet.bulk_validation_status], for the form [get_object]
    returned and the user [get_real_user] returned; the number is the one
    of the answer "<n> submissions have been updated". *)
Definition bulk_validation_status (xform : XForm.t) (real_user : User)
    : world Store → (status_error + Z) * world Store := λ w,
  match request_data w !! "validation_status.uid" with
  | None => (inl NoValidationStatusUid, w)
  | Some new_validation_status_uid =>
      match update_validation_statuses xform real_user
              new_validation_status_uid w with
      | (Ok updated_records_count, w') => (inr updated_records_count, w')
      | (Raise e, w') => (inl (Raised e), w')
      end
  end.
End BulkValidationStatus.

(** ** Actions on one submission *)

Definition HTTP_200_OK : Z := 200.
Definition HTTP_201_CREATED : Z := 201.
Definition HTTP_400_BAD_REQUEST : Z := 400.
Definition HTTP_404_NOT_FOUND : Z := 404.

(** Python's truth value of an optional string: [None] and [""] are
    false. *)
Definition nonempty (s : option string) : bool :=
  match s with
  | Some t => negb (String.eqb t "")
  | None => false
  end.

(** *** Labels *)

(** The tag manager of a submission, as the names of its tags:
    [tags.filter(name=label)], [tags.remove(label)], [tags.count()] and
    [tags.names()] of django-taggit. *)
Module Tags.
Definition filter_name (label : string) (tags : list string) : list string :=
  filter (λ name, name = label) tags.

Definition remove (label : string) (tags : list string) : list string :=
  filter (λ name, name ≠ label) tags.

Definition count (tags : list string) : Z := Z.of_nat (length tags).

Definition names (tags : list string) : list string := tags.
End Tags.

(** [Response(data, status=http_status)] of [labels]. *)
Record labels_response : Type := LabelsResponse {
  labels_data : list string;
  labels_status : Z
}.

Section Labels.
(** [add_tags_to_instance(request, instance)]: whether tags were added,
    and the tags the submission has afterwards. *)
Variable add_tags_to_instance :
  gmap string json → list string → bool * list string.

(** [DataViewSet.labels], for the submission [get_object] returned, whose
    tags are [instance_tags]; [label] is [kwargs.get('label')].  Returns
    the response and the tags of the submission afterwards. *)
Definition labels (method : string) (request_data_ : gmap string json)
    (label : option string) (instance_tags : list string)
    : labels_response * list string :=
  let http_status := HTTP_400_BAD_REQUEST in
  let '(http_status, tags) :=
    if String.eqb method "POST" then
      let '(added, tags) := add_tags_to_instance request_data_ instance_tags in
      (if added then HTTP_201_CREATED else http_status, tags)
    else (http_status, instance_tags) in
  let '(http_status, data, tags) :=
    match label with
    | Some label_ =>
        if String.eqb method "GET" && nonempty label then
          (http_status, Tags.filter_name label_ tags, tags)
        else if String.eqb method "DELETE" && nonempty label then
          let count := Tags.count tags in
          let tags := Tags.remove label_ tags in
          (* Accepted, label does not exist hence nothing removed *)
          (if count =? Tags.count tags then HTTP_200_OK
           else HTTP_404_NOT_FOUND,
           Tags.names tags, tags)
        else (http_status, Tags.names tags, tags)
    | None => (http_status, Tags.names tags, tags)
    end in
  let http_status :=
    if String.eqb method "GET" then HTTP_200_OK else http_status in
  (LabelsResponse data http_status, tags).
End Labels.

(** *** Validation status of one submission *)


Section ValidationStatus.
(** [add_validation_status_to_instance(request, instance)] and
    [remove_validation_status_from_instance(instance)]: whether they
    succeeded, and [instance.validation_status] afterwards. *)
Variable add_validation_status_to_instance : gmap string json → json → bool * json.
Variable remove_validation_status_from_instance : json → bool * json.

End ValidationStatus.

(** *** Enketo links *)

(** What [get_enketo_submission_url] gives: the link, or an
    [EnketoError] with its message. *)
Inductive enketo_reply : Type :=
| EnketoUrl (url : string)
| EnketoError (msg : string).

(** What [enketo_edit] raises: its own [ValidationError], "Cannot edit
    submissions while ... is disabled for your account", or what
    [_enketo_request] raised. *)
Inductive enketo_edit_error : Type :=
| RequireAuthDisabled
| EnketoRaised (e : exn).

Section Enketo.
(** [get_enketo_submission_url(request, object_, return_url, action)],
    for the submission [pk]. *)
Variable get_enketo_submission_url : Z → option string → string → enketo_reply.

(** [DataViewSet._enketo_request], for the object [get_object] returned;
    [return_url] is [request.query_params.get('return_url')]. *)
Definition _enketo_request (object_ : lookup_object)
    (return_url : option string) (action_ : string)
    : result (gmap string json) :=
  match object_ with
  | AnXForm _ => Raise (ParseError "Data id not provided.")
  | AnInstance pk =>
      if negb (nonempty return_url) && negb (String.eqb action_ "view")
      then Raise (ParseError "`return_url` not provided.")
      else
        match get_enketo_submission_url pk return_url action_ with
        | EnketoUrl url => Ok {[ "url" := JStr url ]}
        | EnketoError msg => Ok {[ "detail" := JStr msg ]}
        end
  end.

(** [DataViewSet.enketo_edit]; [require_auth] is the flag of the profile
    of the requesting user. *)
Definition enketo_edit (require_auth : bool) (object_ : lookup_object)
    (return_url : option string) : enketo_edit_error + gmap string json :=
  if negb require_auth then inl RequireAuthDisabled
  else
    match _enketo_request object_ return_url "edit" with
    | Ok data => inr data
    | Raise e => inl (EnketoRaised e)
    end.

(** [DataViewSet.enketo]: kept for retro-compatibility. *)
Definition enketo := enketo_edit.

(** [DataViewSet.enketo_view]. *)
Definition enketo_view (object_ : lookup_object) (return_url : option string)
    : result (gmap string json) :=
  _enketo_request object_ return_url "view".
End Enketo.

(** ** Finding the form and the submission *)

(** The columns of a form the query sets are filtered on. *)
Module FormRow.
Record t : Type := {
  pk : Z;
  shared : bool;
  shared_data : bool;
  tags : list string
}.

#[global] Instance eq_dec : EqDecision t.
Proof. solve_decision. Defined.
End FormRow.

(** What the lookups raise: [Http404], or a [ParseError]. *)
Inductive lookup_error : Type :=
| Http404 (msg : string)
| LookupRaised (e : exn).

(** [s.split(sep)] for a separator of one character. *)
Fixpoint split_on (sep : ascii) (s : string) : list string :=
  match s with
  | EmptyString => [EmptyString]
  | String c s' =>
      if Ascii.eqb c sep then EmptyString :: split_on sep s'
      else
        match split_on sep s' with
        | head :: rest => String c head :: rest
        | [] => [String c EmptyString]
        end
  end.

Section Lookups.
(** [int(s)] on a string, [None] for [ValueError]. *)
Variable int_of_str : string → option Z.
(** [XForm.objects.all()]. *)
Variable all_forms : list FormRow.t.
(** The filter backends of the view set, applied by
    [super().filter_queryset]. *)
Variable filter_backends : list FormRow.t → list FormRow.t.
(** The rows of [Instance], as pairs of the key of the submission and the
    key of its form. *)
Variable all_instances : list (Z * Z).

(** [DataViewSet._get_public_forms_queryset]. *)
Definition _get_public_forms_queryset : list FormRow.t :=
  filter (λ row, FormRow.shared row || FormRow.shared_data row) all_forms.

(** [DataViewSet._filtered_or_shared_qs], for a [pk] that [int()]
    accepted. *)
Definition _filtered_or_shared_qs (qs : list FormRow.t) (pk : Z)
    : lookup_error + list FormRow.t :=
  let qs := filter (λ row, FormRow.pk row = pk) qs in
  if bool_decide (qs = []) then
    let qs :=
      filter (λ row, FormRow.pk row = pk ∧ FormRow.shared_data row = true)
        all_forms in
    if bool_decide (qs = []) then
      inl (Http404 "No data matches with given query.")
    else inr qs
  else inr qs.

(** [qs.filter(tags__name__in=tags).distinct()]. *)
Definition filter_tags (tags : list string) (qs : list FormRow.t)
    : list FormRow.t :=
  filter (λ row, Exists (λ name, name ∈ tags) (FormRow.tags row)) qs.

(** [DataViewSet.filter_queryset]; [pk] is the keyword argument of the
    URL and [tags] the query parameter. *)
Definition filter_queryset (queryset : list FormRow.t)
    (pk tags : option string) : lookup_error + list FormRow.t :=
  let qs := filter_backends queryset in
  let qs :=
    match tags with
    | Some tags_ =>
        if nonempty tags then filter_tags (split_on "," tags_) qs else qs
    | None => qs
    end in
  match pk with
  | Some pk_ =>
      if nonempty pk then
        match int_of_str pk_ with
        | None => inl (LookupRaised (ParseError ("Invalid pk " +:+ pk_)))
        | Some n => _filtered_or_shared_qs qs n
        end
      else inr qs
  | None => inr qs
  end.

(** [DataViewSet.get_object], for the form [super().get_object()]
    returned. *)
Definition get_object (xform : XForm.t) (pk dataid : option string)
    : lookup_error + lookup_object :=
  match pk, dataid with
  | Some pk_, Some dataid_ =>
      match int_of_str pk_ with
      | None =>
          inl (LookupRaised (ParseError ("Invalid pk `" +:+ pk_ +:+ "`")))
      | Some form_pk =>
          match int_of_str dataid_ with
          | None =>
              inl (LookupRaised
                     (ParseError ("Invalid dataid `" +:+ dataid_ +:+ "`")))
          | Some instance_pk =>
              (* get_object_or_404(Instance, pk=dataid, xform__pk=pk) *)
              if bool_decide ((instance_pk, form_pk) ∈ all_instances)
              then inr (AnInstance instance_pk)
              else inl (Http404 "No Instance matches the given query.")
          end
      end
  | _, _ => inr (AnXForm xform)
  end.
End Lookups.

(** ** The command [update_attachment_storage_bytes] *)

Module Storage.
(** The columns of [UserProfile] the command reads and writes. *)
Record UserProfile : Type := {
  attachment_storage_bytes : Z;
  metadata : option (gmap string json)
}.

(** A row of [XForm.objects.values('pk', 'user_id', 'user__username')]. *)
Record form : Type := {
  pk : Z;
  user_id : Z;
  user__username : string
}.

(** The tables: the profiles by [user_id], the forms, the
    [attachment_storage_bytes] of each form by its key, and the
    attachments as pairs of the key of the form of their submission and
    their [media_file_size]. *)
Record db : Type := {
  profiles : gmap Z UserProfile;
  forms : list form;
  form_storage : gmap Z Z;
  attachments : list (Z * Z)
}.

(** What the command writes to [stdout]. *)
Inductive message : Type :=
| CalculatingAttachments (pk : Z) (username : string)
| UpdatingXForm (total : Z)
| NoAttachmentsFound
| UpdatingProfile (total : Z) (username : string)
| Done.

(** [metadata__attachments_counting_status='complete']. *)
Definition is_complete (profile : UserProfile) : bool :=
  match metadata profile with
  | Some md =>
      match md !! "attachments_counting_status" with
      | Some (JStr status) => String.eqb status "complete"
      | _ => false
      end
  | None => false
  end.

(** [Attachment.objects.filter(instance__xform_id=pk)
    .aggregate(total=Sum('media_file_size'))['total']]: [None] when the
    form has no attachment. *)
Definition attachment_total (d : db) (xform_pk : Z) : option Z :=
  match (filter (λ a, a.1 = xform_pk) (attachments d)).*2 with
  | [] => None
  | sizes => Some (foldr Z.add 0 sizes)
  end.

(** [order_by('user_id')]. *)
Definition by_user_id (f g : form) : Prop := user_id f ≤ user_id g.

#[global] Instance by_user_id_dec f g : Decision (by_user_id f g).
Proof. unfold by_user_id. apply _. Defined.

(** The bytes of the attachments of the forms of [fs] that belong to
    the user [uid]. *)
Definition user_total (d : db) (fs : list form) (uid : Z) : Z :=
  foldr Z.add 0
    ((λ f, default 0 (attachment_total d (pk f)))
       <$> filter (λ f, user_id f = uid) fs).

(** [attachment_storage_bytes] of the profile of a user, if there is
    one. *)
Definition bytes_of (d : db) (uid : Z) : option Z :=
  attachment_storage_bytes <$> profiles d !! uid.

(** The variables of [handle] inside its loop. *)
Record loop_state : Type := {
  database : db;
  total_per_user : gmap Z Z;
  last_xform : option form;
  stdout : list message
}.

Section Command.
(** [ReplaceValues('metadata', updates=...)] applied to the [metadata] of
    a row. *)
Variable replace_values :
  option (gmap string json) → gmap string json → option (gmap string json).
(** Whether [exclude(metadata__attachments_counting_status='complete')]
    selects a profile that is not complete, given its [metadata]. *)
Variable exclude_selects : option (gmap string json) → bool.
(** The profile [get_or_create] creates. *)
Variable new_profile : UserProfile.
Variable verbosity : Z.

Definition write (msg : message) (out : list message) : list message :=
  if 1 <=? verbosity then out ++ [msg] else out.

Definition with_profiles (d : db) (ps : gmap Z UserProfile) : db :=
  {| profiles := ps; forms := forms d; form_storage := form_storage d;
     attachments := attachments d |}.

(** The first statement of [handle]: release any locks. *)
Definition release_locks (d : db) : db :=
  with_profiles d
    ((λ profile,
        if is_complete profile then profile
        else if exclude_selects (metadata profile) then
          {| attachment_storage_bytes := attachment_storage_bytes profile;
             metadata :=
               replace_values (metadata profile)
                 {[ "submissions_suspended" := JBool false ]} |}
        else profile) <$> profiles d).

(** [up_queryset]: the users whose profile is complete. *)
Definition up_queryset (d : db) : gset Z :=
  dom (filter (λ kv, is_complete kv.2) (profiles d)).

(** [xforms]: the forms of the other users, ordered by [user_id]; the
    order the database gives to the forms of one user is not fixed, it is
    here the one of a stable sort. *)
Definition xforms (d : db) : list form :=
  merge_sort by_user_id
    (filter (λ f, user_id f ∉ up_queryset d) (forms d)).

(** [Command.update_user_profile], without its message. *)
Definition update_profile_row (xform : form) (total : Z) (d : db) : db :=
  with_profiles d
    (match profiles d !! user_id xform with
     | Some profile =>
         <[user_id xform :=
             {| attachment_storage_bytes := total;
                metadata :=
                  replace_values (metadata profile)
                    {[ "submissions_suspended" := JBool false;
                       "attachments_counting_status" := JStr "complete" ]} |}]>
           (profiles d)
     | None => profiles d
     end).

(** [Command.update_user_profile]. *)
Definition update_user_profile (xform : form) (total : Z) (st : loop_state)
    : loop_state :=
  {| database := update_profile_row xform total (database st);
     total_per_user := total_per_user st;
     last_xform := last_xform st;
     stdout := write (UpdatingProfile total (user__username xform)) (stdout st) |}.

(** Retrieve or create the profile of a user and set its flag
    [submissions_suspended] if it was never set. *)
Definition suspend_submissions (uid : Z) (d : db) : db :=
  let user_profile := default new_profile (profiles d !! uid) in
  let created := <[uid := user_profile]> (profiles d) in
  (* Some old profiles don't have metadata *)
  let md := default ∅ (metadata user_profile) in
  if negb (truthy (default JNull (md !! "submissions_suspended"))) then
    with_profiles d
      (<[uid :=
           {| attachment_storage_bytes := attachment_storage_bytes user_profile;
              metadata := Some (<["submissions_suspended" := JBool true]> md) |}]>
         created)
  else with_profiles d created.

(** [total_per_user[user_id]] of a [defaultdict(int)]. *)
Definition total_of (totals : gmap Z Z) (uid : Z) : Z := default 0 (totals !! uid).

(** One turn of the loop of [handle]. *)
Definition loop_body (st : loop_state) (xform : form) : loop_state :=
  let st :=
    match last_xform st with
    | Some last =>
        if bool_decide (user_id last ≠ user_id xform) then
          update_user_profile last (total_of (total_per_user st) (user_id last))
            {| database := suspend_submissions (user_id xform) (database st);
               total_per_user := total_per_user st;
               last_xform := last_xform st;
               stdout := stdout st |}
        else st
    | None =>
        {| database := suspend_submissions (user_id xform) (database st);
           total_per_user := total_per_user st;
           last_xform := last_xform st;
           stdout := stdout st |}
    end in
  (* write out xform progress *)
  let out :=
    write (CalculatingAttachments (pk xform) (user__username xform)) (stdout st) in
  match attachment_total (database st) (pk xform) with
  | Some total =>
      if negb (total =? 0) then
        {| database :=
             {| profiles := profiles (database st);
                forms := forms (database st);
                form_storage := <[pk xform := total]> (form_storage (database st));
                attachments := attachments (database st) |};
           total_per_user :=
             <[user_id xform := total_of (total_per_user st) (user_id xform) + total]>
               (total_per_user st);
           last_xform := Some xform;
           stdout := write (UpdatingXForm total) out |}
      else
        {| database := database st; total_per_user := total_per_user st;
           last_xform := Some xform; stdout := write NoAttachmentsFound out |}
  | None =>
      {| database := database st; total_per_user := total_per_user st;
         last_xform := Some xform; stdout := write NoAttachmentsFound out |}
  end.

(** The two halves of a turn of the loop: the change of user, and the
    count of the attachments of the form. *)
Definition change_user (st : loop_state) (xform : form) : loop_state :=
  match last_xform st with
  | Some last =>
      if bool_decide (user_id last ≠ user_id xform) then
        update_user_profile last (total_of (total_per_user st) (user_id last))
          {| database := suspend_submissions (user_id xform) (database st);
             total_per_user := total_per_user st;
             last_xform := last_xform st;
             stdout := stdout st |}
      else st
  | None =>
      {| database := suspend_submissions (user_id xform) (database st);
         total_per_user := total_per_user st;
         last_xform := last_xform st;
         stdout := stdout st |}
  end.

(** What holds of the variables of the loop once the forms [done] have
    been through it, for the tables [d] the loop started from. *)
Definition loop_invariant (d : db) (done : list form) (st : loop_state) : Prop :=
  attachments (database st) = attachments d
  ∧ (∀ uid, total_of (total_per_user st) uid = user_total d done uid)
  ∧ last_xform st = last done
  ∧ (∀ uid, uid ∈ user_id <$> done → is_Some (profiles (database st) !! uid))
  ∧ (∀ uid, uid ∈ user_id <$> done → Some uid ≠ user_id <$> last done →
       bytes_of (database st) uid = Some (user_total d done uid)).

(** [Command.handle]: the tables and the output it leaves. *)
Definition handle (d : db) : db * list message :=
  let d := release_locks d in
  let st :=
    fold_left loop_body (xforms d)
      {| database := d; total_per_user := ∅; last_xform := None; stdout := [] |} in
  let st :=
    match last_xform st with
    | Some last =>
        update_user_profile last (total_of (total_per_user st) (user_id last)) st
    | None => st
    end in
  (database st, write Done (stdout st)).
End Command.
End Storage.

(** ** More of the concrete deployment *)

Module DemoMore.
Import Demo.

(** The deployment of [Demo] with PostgreSQL refusing to delete. *)
Definition postgres_down : Collaborators documents := {|
  int_of_str := ascii_int;
  userform_id := λ username_ id_string_,
    JStr (username_ +:+ "_" +:+ id_string_);
  app_label := "logger";
  query_mongo_no_paging := λ st _ fields,
    Ok ((λ doc, filter (λ kv, kv.1 ∈ fields) doc) <$> st);
  instance_filter_delete := λ st _,
    (Raise (CollaboratorError "server closed the connection"), st);
  parsed_instance_bulk_delete := λ st _, (Ok (), st);
  run_nullify_exports_time_of_last_submission := λ st _, (Ok (), st);
  run_update_xform_submission_count_delete := λ st _ _, (Ok (), st);
  run_receiver := λ st _ _ _, (Ok (), st);
  delete_rows := λ st _, (Ok (), st)
|}.

(** The deployment of [Demo] with PostgreSQL reporting three deleted
    [Instance] rows. *)
Definition three_deleted : Collaborators documents := {|
  int_of_str := ascii_int;
  userform_id := λ username_ id_string_,
    JStr (username_ +:+ "_" +:+ id_string_);
  app_label := "logger";
  query_mongo_no_paging := λ st _ fields,
    Ok ((λ doc, filter (λ kv, kv.1 ∈ fields) doc) <$> st);
  instance_filter_delete := λ st _,
    (Ok (5, {[ "logger.Instance"%string := 3; "logger.Note"%string := 2 ]}), st);
  parsed_instance_bulk_delete := λ st _, (Ok (), []);
  run_nullify_exports_time_of_last_submission := λ st _, (Ok (), st);
  run_update_xform_submission_count_delete := λ st _ _, (Ok (), st);
  run_receiver := λ st _ _ _, (Ok (), st);
  delete_rows := λ st _, (Ok (), st)
|}.

(** A status object that names its uid and its author, two rows updated
    in PostgreSQL, and a MongoDB that stamps every document. *)
Definition status_deployment : StatusCollaborators documents := {|
  get_validation_status := λ _ uid _ username_,
    Ok (JDict {[ "uid" := uid; "by_whom" := JStr username_ ]});
  instance_filter_update := λ st _ _, (Ok 2, st);
  bulk_update_validation_statuses := λ st _ status,
    (Ok (), (λ doc, <["_validation_status" := status]> doc) <$> st)
|}.

Definition approved : json := JStr "validation_status_approved".

(** A registry in which the triggers were never connected. *)
Definition bare_registry : Signals.registry := Signals.Registry [] [].

(** Three forms: one private, one public through [shared] only, one
    public through [shared_data]. *)
Definition private_form : FormRow.t :=
  {| FormRow.pk := 1; FormRow.shared := false; FormRow.shared_data := false;
     FormRow.tags := ["health"%string] |}.
Definition shared_form : FormRow.t :=
  {| FormRow.pk := 2; FormRow.shared := true; FormRow.shared_data := false;
     FormRow.tags := [] |}.
Definition shared_data_form : FormRow.t :=
  {| FormRow.pk := 3; FormRow.shared := false; FormRow.shared_data := true;
     FormRow.tags := ["water"%string] |}.
Definition the_forms : list FormRow.t :=
  [private_form; shared_form; shared_data_form].

(** The filter backends of a requester who may see the first form only. *)
Definition own_forms (qs : list FormRow.t) : list FormRow.t :=
  filter (λ row, FormRow.pk row = 1) qs.

(** Submission 20 belongs to form 1, submission 30 to form 3. *)
Definition the_instances : list (Z * Z) := [(20, 1); (30, 3)].

(** [get_enketo_submission_url] of an Enketo that is down. *)
Definition enketo_down (pk : Z) (return_url : option string) (action_ : string)
    : enketo_reply :=
  EnketoError "Enketo is not available".

(** Tables for the storage command: alice owns forms 1 and 2, bob form
    3 and a profile marked complete, carol form 4 and no profile. *)
Definition storage_tables : Storage.db := {|
  Storage.profiles :=
    {[ 10 := {| Storage.attachment_storage_bytes := 0;
                Storage.metadata := None |};
       11 := {| Storage.attachment_storage_bytes := 999;
                Storage.metadata :=
                  Some {[ "attachments_counting_status" := JStr "complete" ]} |} ]};
  Storage.forms :=
    [ {| Storage.pk := 1; Storage.user_id := 10; Storage.user__username := "alice" |};
      {| Storage.pk := 3; Storage.user_id := 11; Storage.user__username := "bob" |};
      {| Storage.pk := 2; Storage.user_id := 10; Storage.user__username := "alice" |};
      {| Storage.pk := 4; Storage.user_id := 12; Storage.user__username := "carol" |} ];
  Storage.form_storage := {[ 1 := 0; 2 := 0; 3 := 999; 4 := 77 ]};
  Storage.attachments := [(1, 100); (2, 30); (1, 5); (3, 999)]
|}.

(** [ReplaceValues] as the concatenation of PostgreSQL, which leaves a
    missing document missing. *)
Definition concat_values (md : option (gmap string json))
    (updates : gmap string json) : option (gmap string json) :=
  (λ d, updates ∪ d) <$> md.

Definition blank_profile : Storage.UserProfile :=
  {| Storage.attachment_storage_bytes := 0; Storage.metadata := Some ∅ |}.
End DemoMore.

(** * Properties *)

(** ** The resolver, case by case *)

Section ResolverFacts.
Context {Store : Type} {site : Collaborators Store}.
Implicit Types (w : world Store).

Lemma lookup_remove_empty_Some (data : gmap string json) key v :
  remove_empty_values data !! key = Some v ↔ data !! key = Some v ∧ truthy v.
Proof. unfold remove_empty_values. by rewrite map_lookup_filter_Some. Qed.

Lemma lookup_remove_empty_None (data : gmap string json) key :
  remove_empty_values data !! key = None
  ↔ ∀ v, data !! key = Some v → truthy v = false.
Proof.
  unfold remove_empty_values. rewrite map_lookup_filter_None. simpl. split.
  - intros [Hnone | Hfalsy] v Hv; [congruence |].
    specialize (Hfalsy v Hv). by destruct (truthy v).
  - intros Hfalsy. right. intros v Hv. rewrite (Hfalsy v Hv). auto.
Qed.

Lemma is_True_spec v : is_True v = true ↔ v = JBool true.
Proof. split; [by destruct v as [ | [] | | | | | ] | by intros ->]. Qed.

(** ["confirm"] survives the removal of empty values exactly when it
    matters. *)
Lemma confirm_after_removal (data : gmap string json) :
  is_True (default (JBool false) (remove_empty_values data !! "confirm")) = true
  ↔ data !! "confirm" = Some (JBool true).
Proof.
  rewrite is_True_spec. split.
  - destruct (remove_empty_values data !! "confirm") as [v|] eqn:Hv;
      simpl; [| done].
    intros ->. by apply lookup_remove_empty_Some in Hv as [? _].
  - intros Hc.
    assert (remove_empty_values data !! "confirm" = Some (JBool true)) as ->; [| done].
    by apply lookup_remove_empty_Some.
Qed.

Ltac run_resolver :=
  unfold build_db_queries, bind, get_request_data, raise, ret,
    mutate_request_value, read_store; simpl.

Ltac no_conflict Hq Hs :=
  rewrite Hq, Hs;
  first [ rewrite (bool_decide_eq_false_2 (is_Some None)) by (by intros [? ?]) ];
  rewrite ?andb_false_r, ?andb_false_l.

(** Both selectors present. *)
Lemma resolve_conflict (xform_ : XForm.t) w q s :
  remove_empty_values (request_data w) !! "query" = Some q →
  remove_empty_values (request_data w) !! "submission_ids" = Some s →
  build_db_queries xform_ w = (Raise (ValidationError QueryAndIdsTogether), w).
Proof.
  intros Hq Hs. run_resolver. rewrite Hq, Hs.
  by rewrite !bool_decide_eq_true_2 by eauto.
Qed.

(** First scenario: a query that is a dictionary. *)
Lemma resolve_query (xform_ : XForm.t) w query :
  remove_empty_values (request_data w) !! "query" = Some (JDict query) →
  remove_empty_values (request_data w) !! "submission_ids" = None →
  build_db_queries xform_ w =
    (match query_mongo_no_paging (store w) (JDict (base_query xform_ ∪ query))
             ["_id"%string] with
     | Ok cursor => Ok (narrowed xform_ (record_ids cursor))
     | Raise e => Raise e
     end,
     world_after_query xform_ query w).
Proof.
  intros Hq Hs. run_resolver. no_conflict Hq Hs.
  unfold world_after_query, base_query.
  by destruct (query_mongo_no_paging _ _ _).
Qed.

(** First scenario: a query that has no [update]. *)
Lemma resolve_invalid_query (xform_ : XForm.t) w q :
  remove_empty_values (request_data w) !! "query" = Some q →
  (∀ d, q ≠ JDict d) →
  remove_empty_values (request_data w) !! "submission_ids" = None →
  build_db_queries xform_ w = (Raise (ValidationError (InvalidQuery q)), w).
Proof.
  intros Hq Hnd Hs. run_resolver. no_conflict Hq Hs.
  destruct q; try done. by destruct (Hnd d).
Qed.

(** Second scenario: a list of ids. *)
Lemma resolve_submission_ids (xform_ : XForm.t) w s :
  remove_empty_values (request_data w) !! "query" = None →
  remove_empty_values (request_data w) !! "submission_ids" = Some s →
  build_db_queries xform_ w =
    (match int_submission_ids s with
     | Ok ids => Ok (narrowed xform_ (JInt <$> ids))
     | Raise ValueError => Raise (ValidationError (InvalidSubmissionIds s))
     | Raise e => Raise e
     end, w).
Proof.
  intros Hq Hs. run_resolver. no_conflict Hq Hs.
  destruct (int_submission_ids s) as [ids | []]; done.
Qed.

(** Third scenario: the whole form. *)
Lemma resolve_all (xform_ : XForm.t) w :
  remove_empty_values (request_data w) !! "query" = None →
  remove_empty_values (request_data w) !! "submission_ids" = None →
  build_db_queries xform_ w =
    (if is_True (default (JBool false)
                   (remove_empty_values (request_data w) !! "confirm"))
     then Ok (form_filter xform_, base_query xform_)
     else Raise NoConfirmationProvidedException, w).
Proof.
  intros Hq Hs. run_resolver. no_conflict Hq Hs.
  by destruct (is_True _).
Qed.

(** The resolver leaves the signal registry alone. *)
Lemma build_db_queries_signals (xform_ : XForm.t) w :
  signals (build_db_queries xform_ w).2 = signals w.
Proof.
  destruct (remove_empty_values (request_data w) !! "query") as [q|] eqn:Hq;
    destruct (remove_empty_values (request_data w) !! "submission_ids")
      as [s|] eqn:Hs.
  - by rewrite (resolve_conflict _ _ _ _ Hq Hs).
  - destruct q;
      try (rewrite (resolve_invalid_query _ _ _ Hq) by done; done).
    by rewrite (resolve_query _ _ _ Hq Hs).
  - by rewrite (resolve_submission_ids _ _ _ Hq Hs).
  - by rewrite (resolve_all _ _ Hq Hs).
Qed.
End ResolverFacts.

(** ** Claims on the resolver *)

Section ResolverClaims.
Context {Store : Type} {site : Collaborators Store}.
Implicit Types (w : world Store).

Lemma base_query_scope (xform_ : XForm.t) :
  base_query xform_ !! USERFORM_ID
  = Some (userform_id (username (XForm.user xform_)) (XForm.id_string xform_)).
Proof. unfold base_query, get_base_query. by rewrite lookup_singleton_eq. Qed.

Lemma base_query_other (xform_ : XForm.t) key :
  key ≠ USERFORM_ID → base_query xform_ !! key = None.
Proof.
  intros Hne. unfold base_query, get_base_query.
  by rewrite lookup_singleton_ne.
Qed.

Lemma narrowed_keeps_scope (xform_ : XForm.t) ids :
  base_query xform_ ⊆ (narrowed xform_ ids).2
  ∧ (narrowed xform_ ids).1 !! "xform_id" = Some (JInt (XForm.id xform_)).
Proof.
  unfold narrowed, form_filter; simpl. split.
  - apply insert_subseteq. by apply base_query_other.
  - rewrite lookup_insert_ne by done. by rewrite lookup_singleton_eq.
Qed.

(** C1.  Whenever the payload's [query] is a mapping and resolution
    succeeds, the document filter returned contains the base scope of the
    form and the relational filter its clause [xform_id = <form id>].
    If the query is not empty, it is run once against the document store
    after the base scope has been merged into it: the merged query holds
    the form's own value under the scope key, whatever the user's query
    held there, and agrees with the user's query on every other key. *)
Theorem resolved_filters_keep_scope (xform_ : XForm.t) w query
    postgres_query mongo_query w' :
  request_data w !! "query" = Some (JDict query) →
  build_db_queries xform_ w = (Ok (postgres_query, mongo_query), w') →
  base_query xform_ ⊆ mongo_query
  ∧ postgres_query !! "xform_id" = Some (JInt (XForm.id xform_))
  ∧ (truthy (JDict query) = true →
     ∃ merged,
       trace w' = trace w ++ [MongoFind (JDict merged) ["_id"%string]]
       ∧ request_data w' !! "query" = Some (JDict merged)
       ∧ merged !! USERFORM_ID
         = Some (userform_id (username (XForm.user xform_))
                             (XForm.id_string xform_))
       ∧ ∀ key, key ≠ USERFORM_ID → merged !! key = query !! key).
Proof.
  intros Hquery Hrun.
  destruct (truthy (JDict query)) eqn:Htruthy.
  - assert (remove_empty_values (request_data w) !! "query"
            = Some (JDict query)) as Hq.
    { apply lookup_remove_empty_Some. split; [done | by rewrite Htruthy]. }
    destruct (remove_empty_values (request_data w) !! "submission_ids")
      as [s|] eqn:Hs.
    + rewrite (resolve_conflict _ _ _ _ Hq Hs) in Hrun. discriminate.
    + rewrite (resolve_query _ _ _ Hq Hs) in Hrun.
      destruct (query_mongo_no_paging _ _ _) as [cursor|]; [| discriminate].
      injection Hrun as <- <- <-.
      destruct (narrowed_keeps_scope xform_ (record_ids cursor)) as [Hm Hp].
      split; [exact Hm |]. split; [exact Hp |]. intros _.
      exists (base_query xform_ ∪ query). simpl.
      split; [done |]. split; [by rewrite lookup_insert_eq |]. split.
      * apply lookup_union_Some_l, base_query_scope.
      * intros key Hne. apply lookup_union_r. by apply base_query_other.
  - assert (remove_empty_values (request_data w) !! "query" = None) as Hq.
    { apply lookup_remove_empty_None. intros v Hv. congruence. }
    destruct (remove_empty_values (request_data w) !! "submission_ids")
      as [s|] eqn:Hs.
    + rewrite (resolve_submission_ids _ _ _ Hq Hs) in Hrun.
      destruct (int_submission_ids s) as [ids | []]; try discriminate.
      injection Hrun as <- <- <-.
      destruct (narrowed_keeps_scope xform_ (JInt <$> ids)) as [Hm Hp].
      split; [exact Hm |]. split; [exact Hp | done].
    + rewrite (resolve_all _ _ Hq Hs) in Hrun.
      destruct (is_True _); [| discriminate].
      injection Hrun as <- <- <-.
      split; [done |]. split; [| done].
      unfold form_filter. by rewrite lookup_singleton_eq.
Qed.

(** C2, as amended.  The resolver writes to no store and leaves the signal
    registry alone, but it is not free of effects.  When the payload, its
    empty values removed, holds a [query] that is a mapping and no
    [submission_ids], the resolver merges the base scope into that mapping
    in place and runs the merged query once against the document store,
    through [query_mongo_no_paging] with the projection [_id].  In every
    other case it leaves the world as it found it. *)
Theorem resolver_effects (xform_ : XForm.t) w :
  (build_db_queries xform_ w).2 =
    match remove_empty_values (request_data w) !! "query",
          remove_empty_values (request_data w) !! "submission_ids" with
    | Some (JDict query), None =>
        World (<["query" := JDict (base_query xform_ ∪ query)]> (request_data w))
              (signals w) (store w)
              (trace w ++ [MongoFind (JDict (base_query xform_ ∪ query))
                                     ["_id"%string]])
    | _, _ => w
    end.
Proof.
  destruct (remove_empty_values (request_data w) !! "query") as [q|] eqn:Hq;
    destruct (remove_empty_values (request_data w) !! "submission_ids")
      as [s|] eqn:Hs.
  - rewrite (resolve_conflict _ _ _ _ Hq Hs). by destruct q.
  - destruct q;
      try (rewrite (resolve_invalid_query _ _ _ Hq) by done; done).
    by rewrite (resolve_query _ _ _ Hq Hs).
  - by rewrite (resolve_submission_ids _ _ _ Hq Hs).
  - by rewrite (resolve_all _ _ Hq Hs).
Qed.

(** C4.  When the payload holds no non-empty [query] and no non-empty
    [submission_ids], the resolver succeeds exactly when [confirm] is the
    boolean [True]: it then returns the filters of the whole form, the
    clause on the form's id and the base scope, nothing else.  With any
    other [confirm], or none, it raises
    [NoConfirmationProvidedException].  It changes nothing either way. *)
Theorem confirmation_required (xform_ : XForm.t) w :
  (∀ v, request_data w !! "query" = Some v → truthy v = false) →
  (∀ v, request_data w !! "submission_ids" = Some v → truthy v = false) →
  (request_data w !! "confirm" = Some (JBool true) →
   build_db_queries xform_ w
   = (Ok (form_filter xform_, base_query xform_), w))
  ∧ (request_data w !! "confirm" ≠ Some (JBool true) →
     build_db_queries xform_ w = (Raise NoConfirmationProvidedException, w)).
Proof.
  intros Hq%lookup_remove_empty_None Hs%lookup_remove_empty_None.
  rewrite (resolve_all _ _ Hq Hs).
  pose proof (confirm_after_removal (request_data w)) as Hconfirm.
  destruct (is_True _).
  - split; [done |]. intros Hne. by destruct Hne; apply Hconfirm.
  - split; [| done]. intros Hc%Hconfirm. discriminate.
Qed.
End ResolverClaims.

(** ** The signal registry *)

Section SignalFacts.
Import Signals.
Implicit Types (s : signal) (k : lookup_key) (r : receiver).

Lemma has_key_true k s : has_key k s = true ↔ k ∈ s.*1.
Proof.
  unfold has_key. induction s as [| e s IH]; simpl.
  - split; [done | by intros ?%not_elem_of_nil].
  - rewrite orb_true_iff, IH, bool_decide_eq_true, elem_of_cons.
    split; intros [? | ?]; auto.
Qed.

Lemma has_key_false k s : has_key k s = false ↔ k ∉ s.*1.
Proof. rewrite <- has_key_true. by destruct (has_key k s). Qed.

Lemma remove_first_keys k k' s :
  k' ∈ (remove_first k s).*1 → k' ∈ s.*1.
Proof.
  induction s as [| e s IH]; simpl; [done |].
  case_bool_decide; simpl; rewrite !elem_of_cons; intuition.
Qed.

Lemma remove_first_NoDup k s : NoDup s.*1 → NoDup (remove_first k s).*1.
Proof.
  induction s as [| e s IH]; simpl; [done |].
  rewrite NoDup_cons. intros [Hfresh Hnd].
  case_bool_decide; simpl; [done |].
  apply NoDup_cons. split; [| auto].
  intros Hin. by apply Hfresh, (remove_first_keys k).
Qed.

(** After [disconnect] the key is gone, as no key is registered twice. *)
Lemma remove_first_gone k s : NoDup s.*1 → has_key k (remove_first k s) = false.
Proof.
  rewrite has_key_false.
  induction s as [| e s IH]; simpl; [intros _; apply not_elem_of_nil |].
  rewrite NoDup_cons. intros [Hfresh Hnd].
  case_bool_decide as Hk; simpl.
  - by rewrite <- Hk.
  - rewrite not_elem_of_cons. auto.
Qed.

Lemma remove_first_absent k k' s :
  has_key k s = false → has_key k (remove_first k' s) = false.
Proof.
  rewrite !has_key_false. intros Hk Hin. by apply Hk, (remove_first_keys k').
Qed.

Lemma connect_NoDup r sender dispatch_uid s :
  NoDup s.*1 → NoDup (connect r sender dispatch_uid s).*1.
Proof.
  intros Hnd. unfold connect.
  destruct (has_key _ s) eqn:Hk; [done |].
  rewrite fmap_app. apply NoDup_app. split; [done |]. split.
  - intros k Hin ->%list_elem_of_singleton. by apply has_key_false in Hk.
  - apply NoDup_singleton.
Qed.

Lemma connect_fresh r sender dispatch_uid s :
  has_key (make_key r sender dispatch_uid) s = false →
  (make_key r sender dispatch_uid, r) ∈ connect r sender dispatch_uid s.
Proof.
  intros Hk. unfold connect. rewrite Hk.
  apply elem_of_app. right. by apply list_elem_of_singleton.
Qed.

Lemma connect_keeps r sender dispatch_uid s (e : lookup_key * receiver) :
  e ∈ s → e ∈ connect r sender dispatch_uid s.
Proof.
  intros Hin. unfold connect. destruct (has_key _ s); [done |].
  apply elem_of_app. by left.
Qed.

Lemma connect_other_key k r sender dispatch_uid s :
  k ≠ make_key r sender dispatch_uid →
  has_key k (connect r sender dispatch_uid s) = has_key k s.
Proof.
  intros Hne. unfold connect. destruct (has_key _ s); [done |].
  unfold has_key. rewrite existsb_app. simpl.
  rewrite bool_decide_eq_false_2 by (simpl; congruence).
  by rewrite !orb_false_r.
Qed.

(** A connected receiver is one the signal calls. *)
Lemma connected_live r sender dispatch_uid s :
  connected r sender dispatch_uid s → r ∈ live_receivers sender s.
Proof.
  unfold connected, live_receivers. intros Hin.
  apply list_elem_of_fmap. exists (make_key r (Some sender) dispatch_uid, r).
  split; [done |]. apply list_elem_of_filter. split; [| done].
  right. by destruct dispatch_uid.
Qed.

Lemma suspend_wf reg : registry_wf reg → registry_wf (suspend reg).
Proof.
  intros [Hpre Hpost]. split; simpl; unfold disconnect;
    auto using remove_first_NoDup.
Qed.

Lemma restore_wf reg : registry_wf reg → registry_wf (restore reg).
Proof.
  intros [Hpre Hpost]. split; simpl; auto using connect_NoDup.
Qed.

(** The three [disconnect] calls do suspend the triggers. *)
Lemma suspend_suspends reg : registry_wf reg → triggers_suspended (suspend reg).
Proof.
  intros [Hpre Hpost]. unfold triggers_suspended, suspend, disconnect; simpl.
  split; [by apply remove_first_gone |]. split.
  - by apply remove_first_absent, remove_first_gone.
  - by apply remove_first_gone, remove_first_NoDup.
Qed.

(** The three [connect] calls put suspended triggers back. *)
Lemma restore_restores reg :
  triggers_suspended reg → triggers_connected (restore reg).
Proof.
  intros (Hmongo & Hnullify & Hupdate).
  unfold triggers_connected, connected, restore; cbn [pre_delete post_delete].
  split; [by apply connect_fresh |]. split.
  - by apply connect_keeps, connect_fresh.
  - apply connect_fresh. by rewrite connect_other_key.
Qed.
End SignalFacts.

(** ** Bulk delete *)

Section BulkDeleteFacts.
Context {Store : Type} {site : Collaborators Store}.
Import Signals.
Implicit Types (w : world Store).

Lemma keeps_signals_ret {A} (a : A) : keeps_signals (ret a : M Store A).
Proof. by intros w. Qed.

Lemma keeps_signals_log e : keeps_signals (log e : M Store unit).
Proof. by intros w. Qed.

Lemma keeps_signals_write_store {A} e (f : Store → result A * Store) :
  keeps_signals (write_store e f).
Proof. intros w. unfold write_store. by destruct (f (store w)). Qed.

Lemma keeps_signals_bind {A B} (c : M Store A) (k : A → M Store B) :
  keeps_signals c → (∀ a, keeps_signals (k a)) → keeps_signals (bind c k).
Proof.
  intros Hc Hk w. unfold bind. specialize (Hc w).
  destruct (c w) as [[a | e] w1]; simpl in *; [| done].
  by rewrite Hk.
Qed.

Create HintDb signals_frame.
Hint Resolve keeps_signals_ret keeps_signals_log keeps_signals_write_store
  keeps_signals_bind : signals_frame.

(** The [try] block works on the stores only. *)
Lemma delete_postgres_and_mongo_signals xform postgres_query mongo_query :
  keeps_signals (delete_postgres_and_mongo xform postgres_query mongo_query).
Proof.
  unfold delete_postgres_and_mongo.
  apply keeps_signals_bind; [auto with signals_frame |].
  intros [all_count results].
  apply keeps_signals_bind;
    [destruct (results !! _); auto with signals_frame |].
  intros n. auto 10 with signals_frame.
Qed.

Lemma disconnect_signals_run w :
  disconnect_signals w
  = (Ok (), World (request_data w) (suspend (signals w)) (store w) (trace w)).
Proof. done. Qed.

Lemma reconnect_signals_run w :
  reconnect_signals w
  = (Ok (), World (request_data w) (restore (signals w)) (store w) (trace w)).
Proof. done. Qed.

(** The registry [bulk_delete] leaves: untouched when the resolver
    raised, suspended then restored otherwise, however the [try] block
    ended. *)
Lemma bulk_delete_signals xform w :
  signals (bulk_delete xform w).2 =
    match (build_db_queries xform w).1 with
    | Ok _ => restore (suspend (signals w))
    | Raise _ => signals w
    end.
Proof.
  pose proof (build_db_queries_signals xform w) as Hframe.
  unfold bulk_delete, bind at 1.
  destruct (build_db_queries xform w) as [[[pq mq] | e] w1];
    simpl in *; [| done].
  unfold bind at 1. rewrite disconnect_signals_run.
  unfold bind, try_finally.
  pose proof (delete_postgres_and_mongo_signals xform pq mq
    (World (request_data w1) (suspend (signals w1)) (store w1) (trace w1)))
    as Hbody.
  destruct (delete_postgres_and_mongo _ _ _ _) as [r w2].
  rewrite reconnect_signals_run. simpl in *.
  rewrite Hbody, Hframe. by destruct r.
Qed.

(** *** One row *)

Lemma bind_Ok {A B} (c : M Store A) (k : A → M Store B) w b w' :
  bind c k w = (Ok b, w') → ∃ a w1, c w = (Ok a, w1) ∧ k a w1 = (Ok b, w').
Proof.
  unfold bind. destruct (c w) as [[a | e] w1]; [eauto | discriminate].
Qed.

Lemma run_receivers_Ok rs sender pk w u w' :
  run_receivers rs sender pk w = (Ok u, w') →
  signals w' = signals w
  ∧ ∃ evs, trace w' = trace w ++ evs
           ∧ ∀ r, r ∈ rs → ReceiverRan r sender ∈ evs.
Proof.
  revert w. induction rs as [| r rs IH]; intros w; simpl.
  - intros [= _ <-]. split; [done |]. exists []. rewrite app_nil_r.
    split; [done |]. by intros r ?%not_elem_of_nil.
  - intros (a & w1 & Hrun & Hrest)%bind_Ok.
    apply IH in Hrest as (Hsig & evs & Htrace & Hran).
    unfold write_store in Hrun.
    destruct (run_receiver _ _ _ _) as [res st].
    injection Hrun as _ <-. simpl in *.
    split; [done |]. exists (ReceiverRan r sender :: evs).
    split; [by rewrite Htrace, <- app_assoc |].
    intros r' [-> | Hin]%elem_of_cons; [left | right; auto].
Qed.

Lemma send_Ok which sender pk w u w' :
  send which sender pk w = (Ok u, w') →
  signals w' = signals w
  ∧ ∃ evs, trace w' = trace w ++ evs
           ∧ ∀ r, r ∈ live_receivers sender (which (signals w)) →
                  ReceiverRan r sender ∈ evs.
Proof. apply run_receivers_Ok. Qed.

(** A single-row delete that returns has run every receiver connected
    to [pre_delete] for [ParsedInstance] and to [post_delete] for
    [Instance]. *)
Lemma instance_delete_Ok pk w u w' :
  instance_delete pk w = (Ok u, w') →
  ∃ evs, trace w' = trace w ++ evs
    ∧ (∀ r, r ∈ live_receivers ParsedInstance (pre_delete (signals w)) →
            ReceiverRan r ParsedInstance ∈ evs)
    ∧ (∀ r, r ∈ live_receivers Instance (post_delete (signals w)) →
            ReceiverRan r Instance ∈ evs).
Proof.
  unfold instance_delete.
  intros (? & w1 & (Hs1 & e1 & Ht1 & Hr1)%send_Ok
          & (? & w2 & (Hs2 & e2 & Ht2 & _)%send_Ok
          & (? & w3 & Hdel
          & (? & w4 & (Hs4 & e4 & Ht4 & _)%send_Ok
          & (Hs5 & e5 & Ht5 & Hr5)%send_Ok)%bind_Ok)%bind_Ok)%bind_Ok)%bind_Ok.
  unfold write_store in Hdel. destruct (delete_rows _ _) as [res st].
  injection Hdel as _ <-. simpl in *.
  exists (e1 ++ e2 ++ [RowDelete pk] ++ e4 ++ e5).
  split; [| split].
  - rewrite Ht5, Ht4, Ht2, Ht1. by rewrite <- !app_assoc.
  - intros r Hr. apply elem_of_app. left. by apply Hr1.
  - intros r Hr. rewrite !elem_of_app. do 4 right. apply Hr5.
    by rewrite Hs4, Hs2, Hs1.
Qed.
End BulkDeleteFacts.

Section BulkDeleteClaims.
Context {Store : Type} {site : Collaborators Store}.
Import Signals.
Implicit Types (w : world Store).

Lemma destroy_runs_triggers pk w resp w' :
  triggers_connected (signals w) →
  destroy (AnInstance pk) w = (Ok resp, w') →
  ∃ evs, trace w' = trace w ++ evs
    ∧ ReceiverRan _remove_from_mongo ParsedInstance ∈ evs
    ∧ ReceiverRan nullify_exports_time_of_last_submission Instance ∈ evs
    ∧ ReceiverRan update_xform_submission_count_delete Instance ∈ evs.
Proof.
  intros (Hmongo & Hnullify & Hupdate). unfold destroy.
  intros (u & w1 & (evs & Htrace & Hpre & Hpost)%instance_delete_Ok
          & [= _ <-])%bind_Ok.
  exists evs. eauto 10 using connected_live.
Qed.

(** C3.  In a process whose three per-row triggers are connected,
    [bulk_delete] leaves them connected however it ends: when the
    resolver raises, when the deletion in PostgreSQL or in MongoDB or the
    update of the form raises inside the [try] block, and when all
    succeed.  A single-row delete that follows and returns has run the
    three receivers. *)
Theorem bulk_delete_restores_triggers xform w :
  registry_wf (signals w) →
  triggers_connected (signals w) →
  let w' := (bulk_delete xform w).2 in
  registry_wf (signals w')
  ∧ triggers_connected (signals w')
  ∧ ∀ pk resp w'',
      destroy (AnInstance pk) w' = (Ok resp, w'') →
      ∃ evs, trace w'' = trace w' ++ evs
        ∧ ReceiverRan _remove_from_mongo ParsedInstance ∈ evs
        ∧ ReceiverRan nullify_exports_time_of_last_submission Instance ∈ evs
        ∧ ReceiverRan update_xform_submission_count_delete Instance ∈ evs.
Proof.
  intros Hwf Hconnected w'.
  assert (registry_wf (signals w') ∧ triggers_connected (signals w'))
    as [Hwf' Hconnected'].
  { subst w'. rewrite bulk_delete_signals.
    destruct (build_db_queries xform w).1; [| done].
    split.
    - by apply restore_wf, suspend_wf.
    - by apply restore_restores, suspend_suspends. }
  split; [done |]. split; [done |].
  intros pk resp w''. by apply destroy_runs_triggers.
Qed.

(** Inside the [try] block the triggers are off: the suspension the
    [finally] block undoes is a real one. *)
Lemma bulk_delete_suspends w :
  registry_wf (signals w) →
  triggers_suspended (signals (disconnect_signals w).2).
Proof. rewrite disconnect_signals_run. apply suspend_suspends. Qed.
End BulkDeleteClaims.

(** ** The claims on a concrete deployment *)

Section DemoRuns.
Import Demo Signals.

Ltac by_computation := apply (bool_decide_unpack _); vm_compute; exact I.

(** The resolver on some payloads of the form [survey] of [bob]. *)
Example both_selectors :
  (build_db_queries (site := deployment true) survey
     (request {[ "query" := JDict monthly;
                 "submission_ids" := JList [JInt 1] ]})).1
  = Raise (ValidationError QueryAndIdsTogether).
Proof. vm_compute. reflexivity. Qed.

Example query_is_a_string :
  (build_db_queries (site := deployment true) survey
     (request {[ "query" := JStr "kind=monthly" ]})).1
  = Raise (ValidationError (InvalidQuery (JStr "kind=monthly"))).
Proof. vm_compute. reflexivity. Qed.

Example ids_given :
  (build_db_queries (site := deployment true) survey
     (request {[ "submission_ids" := JList [JStr "2"; JInt 3] ]})).1
  = Ok (narrowed (site := deployment true) survey [JInt 2; JInt 3]).
Proof. vm_compute. reflexivity. Qed.

Example id_is_not_a_number :
  (build_db_queries (site := deployment true) survey
     (request {[ "submission_ids" := JList [JStr "2"; JStr "x"] ]})).1
  = Raise (ValidationError (InvalidSubmissionIds (JList [JStr "2"; JStr "x"]))).
Proof. vm_compute. reflexivity. Qed.

(** [int(None)] raises [TypeError], which the resolver does not catch. *)
Example id_is_null :
  (build_db_queries (site := deployment true) survey
     (request {[ "submission_ids" := JList [JNull] ]})).1
  = Raise TypeError.
Proof. vm_compute. reflexivity. Qed.

(** [confirm] is not looked at when a query is given. *)
Example query_with_confirm :
  (build_db_queries (site := deployment true) survey
     (request {[ "query" := JDict monthly; "confirm" := JBool true ]})).1
  = Ok (narrowed (site := deployment true) survey [JInt 1; JInt 2]).
Proof. vm_compute. reflexivity. Qed.

Lemma resolved_filters_keep_scope_witness :
  let w := request {[ "query" := JDict monthly_elsewhere ]} in
  let w' := world_after_query (site := deployment true) survey monthly_elsewhere w in
  let filters := narrowed (site := deployment true) survey [JInt 1; JInt 2] in
  build_db_queries (site := deployment true) survey w = (Ok filters, w')
  ∧ filters.2 !! USERFORM_ID = Some (JStr "bob_survey")
  ∧ filters.1 !! "xform_id"%string = Some (JInt 7)
  ∧ trace w' = [MongoFind (JDict monthly_scoped) ["_id"%string]].
Proof.
  intros w w' filters.
  assert (build_db_queries (site := deployment true) survey w = (Ok filters, w'))
    as Hrun by (vm_compute; reflexivity).
  split; [exact Hrun |].
  destruct (resolved_filters_keep_scope (site := deployment true) survey w
              monthly_elsewhere filters.1 filters.2 w')
    as (Hscope & Hform & Hmerged); [vm_compute; reflexivity | exact Hrun |].
  split; [| split; [exact Hform |]].
  - apply (lookup_weaken _ _ _ _ (base_query_scope (site := deployment true) survey) Hscope).
  - vm_compute; reflexivity.
Defined.

(** C2, as stated, fails: a payload with a query makes the resolver read
    the document store and rewrite the query it was handed. *)
Lemma resolver_is_pure_counterexample :
  let w := request {[ "query" := JDict monthly; "confirm" := JBool true ]} in
  let w' := (build_db_queries (site := deployment true) survey w).2 in
  trace w = []
  ∧ trace w' = [MongoFind (JDict monthly_scoped) ["_id"%string]]
  ∧ request_data w !! "query"%string = Some (JDict monthly)
  ∧ request_data w' !! "query"%string = Some (JDict monthly_scoped)
  ∧ ¬ resolver_is_pure (site := deployment true) survey w.
Proof.
  intros w w'.
  assert (trace w' = [MongoFind (JDict monthly_scoped) ["_id"%string]])
    as Htrace by (vm_compute; reflexivity).
  repeat split; try (vm_compute; reflexivity).
  unfold resolver_is_pure. fold w'. intros Hpure.
  rewrite Hpure in Htrace. discriminate Htrace.
Qed.

Lemma bulk_delete_restores_triggers_witness :
  let w := request {[ "confirm" := JBool true ]} in
  let run := bulk_delete (site := deployment false) survey w in
  run.1 = Raise (CollaboratorError "connection refused")
  ∧ triggers_connected (signals run.2)
  ∧ ∃ evs, trace (destroy (site := deployment false) (AnInstance 2) run.2).2
           = trace run.2 ++ evs
      ∧ ReceiverRan update_xform_submission_count_delete Instance ∈ evs.
Proof.
  intros w run.
  split; [vm_compute; reflexivity |].
  destruct (bulk_delete_restores_triggers (site := deployment false) survey w)
    as (_ & Hconnected & Hrow).
  - split; by_computation.
  - unfold triggers_connected, connected. repeat split; by_computation.
  - split; [exact Hconnected |].
    destruct (Hrow 2 NoContent
                (destroy (site := deployment false) (AnInstance 2) run.2).2)
      as (evs & Htrace & _ & _ & Hupdate); [vm_compute; reflexivity |].
    exists evs. split; [exact Htrace | exact Hupdate].
Defined.

Lemma confirmation_required_witness :
  let resolve data :=
    build_db_queries (site := deployment true) survey (request data) in
  let whole_form : queries :=
    ({[ "xform_id" := JInt 7 ]}, {[ "_userform_id" := JStr "bob_survey" ]}) in
  resolve ∅ = (Raise NoConfirmationProvidedException, request ∅)
  ∧ resolve {[ "confirm" := JStr "true" ]}
    = (Raise NoConfirmationProvidedException,
       request {[ "confirm" := JStr "true" ]})
  ∧ resolve {[ "confirm" := JInt 1; "query" := JDict ∅ ]}
    = (Raise NoConfirmationProvidedException,
       request {[ "confirm" := JInt 1; "query" := JDict ∅ ]})
  ∧ resolve {[ "confirm" := JBool true; "submission_ids" := JList [] ]}
    = (Ok whole_form,
       request {[ "confirm" := JBool true; "submission_ids" := JList [] ]}).
Proof.
  intros resolve whole_form. subst resolve whole_form.
  split; [| split; [| split]].
  - apply (confirmation_required (site := deployment true) survey (request ∅));
      intros; discriminate.
  - apply (confirmation_required (site := deployment true) survey
             (request {[ "confirm" := JStr "true" ]}));
      intros; discriminate.
  - apply (confirmation_required (site := deployment true) survey
             (request {[ "confirm" := JInt 1; "query" := JDict ∅ ]}));
      [intros v [= <-]; reflexivity | intros; discriminate ..].
  - apply (confirmation_required (site := deployment true) survey
             (request {[ "confirm" := JBool true;
                         "submission_ids" := JList [] ]}));
      [intros; discriminate | intros v [= <-]; reflexivity | reflexivity].
Defined.
End DemoRuns.

(** * Further properties *)

(** ** The resolver on each kind of payload *)

Section ResolverMore.
Context {Store : Type} {site : Collaborators Store}.
Implicit Types (w : world Store).


Lemma comprehension_Raise {A B} (f : A → result B) pre x post e :
  Forall (λ x, ∃ y, f x = Ok y) pre →
  f x = Raise e →
  comprehension f (pre ++ x :: post) = Raise e.
Proof.
  intros Hpre Hx. induction Hpre as [| x' pre [y Hy] _ IH]; simpl.
  - by rewrite Hx.
  - by rewrite Hy, IH.
Qed.

Lemma kept (data : gmap string json) key v :
  data !! key = Some v → truthy v = true →
  remove_empty_values data !! key = Some v.
Proof.
  intros Hv Ht. apply lookup_remove_empty_Some. by rewrite Ht.
Qed.

Lemma dropped (data : gmap string json) key :
  (∀ v, data !! key = Some v → truthy v = false) →
  remove_empty_values data !! key = None.
Proof. apply lookup_remove_empty_None. Qed.

(** X1.  A payload with a non-empty [query] and a non-empty
    [submission_ids] is refused with "`query` and `instance_ids` can't be
    used together", whatever else it holds, before the payload is changed
    or a store is read. *)
Theorem selectors_conflict (xform_ : XForm.t) w q s :
  request_data w !! "query" = Some q → truthy q = true →
  request_data w !! "submission_ids" = Some s → truthy s = true →
  build_db_queries xform_ w = (Raise (ValidationError QueryAndIdsTogether), w).
Proof.
  intros Hq Htq Hs Hts.
  apply (resolve_conflict _ _ q s); by apply kept.
Qed.

(** X2.  A non-empty [query] that is not a dictionary (a string, a list, a
    number, [true]) is refused with "Invalid query", and nothing is
    changed or read. *)
Theorem invalid_query_rejected (xform_ : XForm.t) w q :
  request_data w !! "query" = Some q → truthy q = true →
  (∀ d, q ≠ JDict d) →
  (∀ v, request_data w !! "submission_ids" = Some v → truthy v = false) →
  build_db_queries xform_ w = (Raise (ValidationError (InvalidQuery q)), w).
Proof.
  intros Hq Htq Hnd Hs.
  apply resolve_invalid_query; [by apply kept | done | by apply dropped].
Qed.



(** X5.  When the first element of [submission_ids] that [int()] does not
    accept is [null], a list or a dictionary, [int()] raises [TypeError];
    the resolver catches [ValueError] only, so the [TypeError] leaves it as
    it is. *)
Theorem submission_ids_type_error (xform_ : XForm.t) w s before bad after :
  (∀ v, request_data w !! "query" = Some v → truthy v = false) →
  request_data w !! "submission_ids" = Some s → truthy s = true →
  py_iter s = Ok (before ++ bad :: after) →
  Forall (λ v, ∃ n, converts v n) before →
  (bad = JNull ∨ (∃ l, bad = JList l) ∨ (∃ d, bad = JDict d)) →
  build_db_queries xform_ w = (Raise TypeError, w).
Proof.
  intros Hq Hs Hts Hiter Hbefore Hbad.
  rewrite (resolve_submission_ids xform_ w s);
    [| by apply dropped | by apply kept].
  unfold int_submission_ids. rewrite Hiter. simpl.
  rewrite (comprehension_Raise _ before bad after TypeError); [done.. |].
  by destruct Hbad as [-> | [[l ->] | [d ->]]].
Qed.

(** X6.  A [submission_ids] that is a non-zero number or [true] cannot be
    iterated: the resolver raises [TypeError], not a validation error. *)
Theorem submission_ids_not_iterable (xform_ : XForm.t) w s :
  (∀ v, request_data w !! "query" = Some v → truthy v = false) →
  request_data w !! "submission_ids" = Some s → truthy s = true →
  (∀ l, s ≠ JList l) → (∀ t, s ≠ JStr t) → (∀ d, s ≠ JDict d) →
  build_db_queries xform_ w = (Raise TypeError, w).
Proof.
  intros Hq Hs Hts Hl Ht Hd.
  rewrite (resolve_submission_ids xform_ w s);
    [| by apply dropped | by apply kept].
  destruct s; try done; [by destruct (Ht s) | by destruct (Hl l) | by destruct (Hd d)].
Qed.

Lemma stripped_insert_ne (data : gmap string json) key key' c :
  key ≠ key' →
  remove_empty_values (<[key' := c]> data) !! key
  = remove_empty_values data !! key.
Proof.
  intros Hne. apply option_eq. intros v.
  by rewrite !lookup_remove_empty_Some, lookup_insert_ne.
Qed.

(** X7.  With a non-empty [query] or a non-empty [submission_ids] in the
    payload, [confirm] is not looked at: setting it to any value gives the
    same filters or the same error. *)
Theorem confirm_ignored_with_selector (xform_ : XForm.t) w c :
  (∃ v, request_data w !! "query" = Some v ∧ truthy v = true)
  ∨ (∃ v, request_data w !! "submission_ids" = Some v ∧ truthy v = true) →
  (build_db_queries xform_
     (with_payload (<["confirm" := c]> (request_data w)) w)).1
  = (build_db_queries xform_ w).1.
Proof.
  intros Hselector.
  set (w2 := with_payload (<["confirm" := c]> (request_data w)) w).
  assert (∀ key, key ≠ "confirm"%string →
            remove_empty_values (request_data w2) !! key
            = remove_empty_values (request_data w) !! key) as Hsame.
  { intros key Hne. by apply stripped_insert_ne. }
  pose proof (Hsame "query"%string ltac:(done)) as Hq2.
  pose proof (Hsame "submission_ids"%string ltac:(done)) as Hs2.
  destruct (remove_empty_values (request_data w) !! "query") as [q|] eqn:Hq;
    destruct (remove_empty_values (request_data w) !! "submission_ids")
      as [s|] eqn:Hs.
  - by rewrite (resolve_conflict _ w2 _ _ Hq2 Hs2),
               (resolve_conflict _ w _ _ Hq Hs).
  - destruct q;
      try (rewrite (resolve_invalid_query _ w2 _ Hq2),
                   (resolve_invalid_query _ w _ Hq) by done; done).
    by rewrite (resolve_query _ w2 _ Hq2 Hs2), (resolve_query _ w _ Hq Hs).
  - by rewrite (resolve_submission_ids _ w2 _ Hq2 Hs2),
               (resolve_submission_ids _ w _ Hq Hs).
  - exfalso. destruct Hselector as [(v & Hv & Ht) | (v & Hv & Ht)].
    + by rewrite (kept _ _ _ Hv Ht) in Hq.
    + by rewrite (kept _ _ _ Hv Ht) in Hs.
Qed.

Lemma narrowed_keys (xform_ : XForm.t) ids key :
  key ≠ USERFORM_ID → key ≠ "_id"%string →
  (narrowed xform_ ids).2 !! key = None.
Proof.
  intros Hscope Hid. unfold narrowed; simpl.
  rewrite lookup_insert_ne by done. by apply base_query_other.
Qed.

(** X8.  A resolution that succeeds returns either the filters of the
    whole form, and then [confirm] is [True] and nothing was changed, or
    both filters narrowed by one and the same list of ids.  Either way the
    document filter holds nothing but the scope key and [_id]: the fields
    of the user's query are not part of it. *)
Theorem resolved_shape (xform_ : XForm.t) w postgres_query mongo_query w' :
  build_db_queries xform_ w = (Ok (postgres_query, mongo_query), w') →
  (((postgres_query, mongo_query) = (form_filter xform_, base_query xform_)
    ∧ request_data w !! "confirm" = Some (JBool true) ∧ w' = w)
   ∨ ∃ ids, (postgres_query, mongo_query) = narrowed xform_ ids)
  ∧ ∀ key, key ≠ USERFORM_ID → key ≠ "_id"%string → mongo_query !! key = None.
Proof.
  intros Hrun.
  destruct (remove_empty_values (request_data w) !! "query") as [q|] eqn:Hq;
    destruct (remove_empty_values (request_data w) !! "submission_ids")
      as [s|] eqn:Hs.
  - rewrite (resolve_conflict _ _ _ _ Hq Hs) in Hrun. discriminate.
  - destruct q;
      try (rewrite (resolve_invalid_query _ _ _ Hq) in Hrun by done;
           discriminate).
    rewrite (resolve_query _ _ _ Hq Hs) in Hrun.
    destruct (query_mongo_no_paging _ _ _) as [cursor|]; [| discriminate].
    injection Hrun as <- <- <-. split; [right; by eexists |].
    apply narrowed_keys.
  - rewrite (resolve_submission_ids _ _ _ Hq Hs) in Hrun.
    destruct (int_submission_ids s) as [ids | []]; try discriminate.
    injection Hrun as <- <- <-. split; [right; by eexists |].
    apply narrowed_keys.
  - rewrite (resolve_all _ _ Hq Hs) in Hrun.
    destruct (is_True _) eqn:Hconfirm; [| discriminate].
    injection Hrun as <- <- <-. split.
    + left. split; [done |]. split; [| done].
      by apply confirm_after_removal.
    + intros key Hscope _. by apply base_query_other.
Qed.

(** When the document store refuses the query, its exception leaves
    the resolver unchanged, and the query of the payload has already been
    rewritten. *)
Lemma executor_error_propagates (xform_ : XForm.t) w query e :
  request_data w !! "query" = Some (JDict query) →
  truthy (JDict query) = true →
  (∀ v, request_data w !! "submission_ids" = Some v → truthy v = false) →
  query_mongo_no_paging (store w) (JDict (base_query xform_ ∪ query))
    ["_id"%string] = Raise e →
  build_db_queries xform_ w = (Raise e, world_after_query xform_ query w).
Proof.
  intros Hq Htq Hs Hfail.
  rewrite (resolve_query xform_ w query);
    [| by apply kept | by apply dropped].
  by rewrite Hfail.
Qed.



End ResolverMore.

(** ** Bulk delete, path by path *)

Section BulkDeleteMore.
Context {Store : Type} {site : Collaborators Store}.
Import Signals.
Implicit Types (w : world Store).

Lemma build_db_queries_store (xform_ : XForm.t) w :
  store (build_db_queries xform_ w).2 = store w.
Proof.
  destruct (remove_empty_values (request_data w) !! "query") as [q|] eqn:Hq;
    destruct (remove_empty_values (request_data w) !! "submission_ids")
      as [s|] eqn:Hs.
  - by rewrite (resolve_conflict _ _ _ _ Hq Hs).
  - destruct q;
      try (rewrite (resolve_invalid_query _ _ _ Hq) by done; done).
    by rewrite (resolve_query _ _ _ Hq Hs).
  - by rewrite (resolve_submission_ids _ _ _ Hq Hs).
  - by rewrite (resolve_all _ _ Hq Hs).
Qed.

(** [bulk_delete] once the resolver has answered. *)
Lemma bulk_delete_resolved xform w postgres_query mongo_query w1 :
  build_db_queries xform w = (Ok (postgres_query, mongo_query), w1) →
  bulk_delete xform w =
    let '(r, w2) :=
      delete_postgres_and_mongo xform postgres_query mongo_query
        (World (request_data w1) (suspend (signals w1)) (store w1) (trace w1)) in
    (match r with
     | Ok n => Ok (SubmissionsDeleted n)
     | Raise e => Raise e
     end,
     World (request_data w2) (restore (signals w2)) (store w2) (trace w2)).
Proof.
  intros Hrun. unfold bulk_delete, bind at 1. rewrite Hrun.
  unfold bind at 1. rewrite disconnect_signals_run.
  unfold bind, try_finally.
  destruct (delete_postgres_and_mongo _ _ _ _) as [[n | e] w2];
    by rewrite reconnect_signals_run.
Qed.

Ltac run_deletion :=
  unfold delete_postgres_and_mongo, bind, write_store, log, ret;
  cbn [request_data signals store trace].

(** X10.  When the resolver refuses the payload, [bulk_delete] raises the
    resolver's exception and goes no further: the stores are as they were
    and the receivers were never disconnected. *)
Theorem bulk_delete_rejected xform w e w1 :
  build_db_queries xform w = (Raise e, w1) →
  bulk_delete xform w = (Raise e, w1)
  ∧ store w1 = store w
  ∧ signals w1 = signals w.
Proof.
  intros Hrun. split.
  - unfold bulk_delete, bind. by rewrite Hrun.
  - pose proof (build_db_queries_store xform w) as Hstore.
    pose proof (build_db_queries_signals xform w) as Hsignals.
    by rewrite Hrun in Hstore, Hsignals.
Qed.

(** X11.  When both deletions and both updates of the form succeed,
    [bulk_delete] answers with the number of [Instance] rows PostgreSQL
    reports, 0 with a warning when it reports none, and hands the same
    number to [update_xform_submission_count_delete].  The calls are made
    in this order: PostgreSQL, MongoDB, export time, submission count. *)
Theorem bulk_delete_success xform w postgres_query mongo_query w1
    all_count results st1 st2 st3 st4 :
  build_db_queries xform w = (Ok (postgres_query, mongo_query), w1) →
  instance_filter_delete (store w1) postgres_query
  = (Ok (all_count, results), st1) →
  parsed_instance_bulk_delete st1 mongo_query = (Ok (), st2) →
  run_nullify_exports_time_of_last_submission st2 xform = (Ok (), st3) →
  run_update_xform_submission_count_delete st3 xform (deleted_count results)
  = (Ok (), st4) →
  bulk_delete xform w =
    (Ok (SubmissionsDeleted (deleted_count results)),
     World (request_data w1) (restore (suspend (signals w1))) st4
       (trace w1 ++ [InstanceFilterDelete postgres_query]
        ++ missing_count_warning results
        ++ [MongoBulkDelete mongo_query; NullifyExportsTime xform;
            UpdateSubmissionCount xform (deleted_count results)])).
Proof.
  intros Hrun Hpg Hmongo Hnullify Hupdate.
  rewrite (bulk_delete_resolved _ _ _ _ _ Hrun). run_deletion.
  rewrite Hpg. cbn [request_data signals store trace].
  unfold deleted_count, missing_count_warning in *.
  destruct (results !! _) as [n|]; cbn [default from_option id] in *;
    cbn [request_data signals store trace];
    rewrite Hmongo; cbn [request_data signals store trace];
    rewrite Hnullify; cbn [request_data signals store trace];
    rewrite Hupdate; cbn [request_data signals store trace];
    by rewrite <- !app_assoc.
Qed.

(** X12.  When the deletion in MongoDB raises after the deletion in
    PostgreSQL went through, [bulk_delete] raises that exception: the rows
    stay deleted in PostgreSQL, and neither the export time nor the
    submission count of the form is updated. *)
Theorem bulk_delete_mongo_failure xform w postgres_query mongo_query w1
    all_count results st1 e st2 :
  build_db_queries xform w = (Ok (postgres_query, mongo_query), w1) →
  instance_filter_delete (store w1) postgres_query
  = (Ok (all_count, results), st1) →
  parsed_instance_bulk_delete st1 mongo_query = (Raise e, st2) →
  bulk_delete xform w =
    (Raise e,
     World (request_data w1) (restore (suspend (signals w1))) st2
       (trace w1 ++ [InstanceFilterDelete postgres_query]
        ++ missing_count_warning results ++ [MongoBulkDelete mongo_query])).
Proof.
  intros Hrun Hpg Hmongo.
  rewrite (bulk_delete_resolved _ _ _ _ _ Hrun). run_deletion.
  rewrite Hpg. cbn [request_data signals store trace].
  unfold missing_count_warning.
  destruct (results !! _) as [n|];
    cbn [request_data signals store trace];
    rewrite Hmongo; cbn [request_data signals store trace];
    by rewrite <- !app_assoc.
Qed.

(** X13.  When the deletion in PostgreSQL raises, MongoDB is not asked to
    delete anything and the form is not updated. *)
Theorem bulk_delete_postgres_failure xform w postgres_query mongo_query w1
    e st1 :
  build_db_queries xform w = (Ok (postgres_query, mongo_query), w1) →
  instance_filter_delete (store w1) postgres_query = (Raise e, st1) →
  bulk_delete xform w =
    (Raise e,
     World (request_data w1) (restore (suspend (signals w1))) st1
       (trace w1 ++ [InstanceFilterDelete postgres_query])).
Proof.
  intros Hrun Hpg.
  rewrite (bulk_delete_resolved _ _ _ _ _ Hrun). run_deletion.
  by rewrite Hpg.
Qed.

(** X14.  Once the resolver has accepted the payload, [bulk_delete] ends
    with the three receivers connected whether or not they were at its
    start: its [finally] block connects, it does not put back what was
    there. *)
Theorem bulk_delete_connects_triggers xform w filters :
  registry_wf (signals w) →
  (build_db_queries xform w).1 = Ok filters →
  triggers_connected (signals (bulk_delete xform w).2).
Proof.
  intros Hwf Hrun. rewrite bulk_delete_signals, Hrun.
  by apply restore_restores, suspend_suspends.
Qed.
End BulkDeleteMore.

(** ** The registry across a bulk delete *)

Section RegistryMore.
Context {Store : Type} {site : Collaborators Store}.
Import Signals.
Implicit Types (s : signal) (k : lookup_key) (r : receiver)
  (e : lookup_key * receiver).

Lemma key_of_elem e s : e ∈ s → e.1 ∈ s.*1.
Proof. intros Hin. by apply list_elem_of_fmap_2. Qed.

Lemma keys_unique s e e' : NoDup s.*1 → e ∈ s → e' ∈ s → e.1 = e'.1 → e = e'.
Proof.
  induction s as [| e0 s IH]; simpl; [by intros _ ?%not_elem_of_nil |].
  rewrite NoDup_cons. intros [Hfresh Hnd].
  intros [-> | He]%elem_of_cons [-> | He']%elem_of_cons Hkey; auto.
  - destruct Hfresh. rewrite Hkey. by apply key_of_elem.
  - destruct Hfresh. rewrite <- Hkey. by apply key_of_elem.
Qed.

Lemma elem_of_remove_first k s e :
  NoDup s.*1 → e ∈ remove_first k s ↔ e ∈ s ∧ e.1 ≠ k.
Proof.
  induction s as [| e0 s IH]; simpl.
  - intros _. split; [by intros ?%not_elem_of_nil | by intros [?%not_elem_of_nil _]].
  - rewrite NoDup_cons. intros [Hfresh Hnd].
    case_bool_decide as Hk; rewrite !elem_of_cons.
    + split.
      * intros Hin. split; [by right |].
        intros Hek. apply Hfresh. rewrite Hk, <- Hek. by apply key_of_elem.
      * intros [[-> | Hin] Hne]; [done | done].
    + rewrite IH by done. split.
      * intros [-> | [Hin Hne]]; auto.
      * intros [[-> | Hin] Hne]; auto.
Qed.

Lemma elem_of_connect r sender dispatch_uid s e :
  e ∈ connect r sender dispatch_uid s
  ↔ e ∈ s ∨ (has_key (make_key r sender dispatch_uid) s = false
             ∧ e = (make_key r sender dispatch_uid, r)).
Proof.
  unfold connect. destruct (has_key _ s).
  - split; [auto | by intros [? | [? _]]].
  - rewrite elem_of_app, list_elem_of_singleton. split.
    + intros [? | ->]; auto.
    + intros [? | [_ ->]]; auto.
Qed.

(** Taking an entry out and connecting it again changes the order at
    most. *)
Lemma split_on_key s k r e :
  NoDup s.*1 → (k, r) ∈ s → e ∈ s ↔ (e ∈ s ∧ e.1 ≠ k) ∨ e = (k, r).
Proof.
  intros Hnd Hin. split.
  - intros He. destruct (decide (e.1 = k)) as [Hk | Hk]; [right | by left].
    by apply (keys_unique s).
  - by intros [[? _] | ->].
Qed.

Lemma restore_suspend_pre reg e :
  registry_wf reg → triggers_connected reg →
  e ∈ pre_delete (restore (suspend reg)) ↔ e ∈ pre_delete reg.
Proof.
  intros [Hpre _] (Hmongo & _). unfold restore, suspend, disconnect.
  cbn [pre_delete post_delete].
  rewrite elem_of_connect, elem_of_remove_first, remove_first_gone by done.
  rewrite (split_on_key (pre_delete reg) _ _ e Hpre Hmongo). intuition.
Qed.

Lemma restore_suspend_post reg e :
  registry_wf reg → triggers_connected reg →
  e ∈ post_delete (restore (suspend reg)) ↔ e ∈ post_delete reg.
Proof.
  intros [_ Hpost] (_ & Hnullify & Hupdate).
  unfold restore, suspend, disconnect. cbn [pre_delete post_delete].
  set (k2 := make_key nullify_exports_time_of_last_submission _ _) in *.
  set (k3 := make_key update_xform_submission_count_delete _ _) in *.
  assert (k3 ≠ k2) as Hne by done.
  rewrite elem_of_connect, connect_other_key by done.
  rewrite (remove_first_gone k3) by by apply remove_first_NoDup.
  rewrite elem_of_connect.
  rewrite (remove_first_absent k2 k3) by by apply remove_first_gone.
  rewrite !elem_of_remove_first by (done || by apply remove_first_NoDup).
  split.
  - intros [[[[? _] _] | [_ ->]] | [_ ->]]; done.
  - intros He.
    destruct (decide (e.1 = k2)) as [Hk2 | Hk2].
    { left. right. split; [done |]. by apply (keys_unique (post_delete reg)). }
    destruct (decide (e.1 = k3)) as [Hk3 | Hk3].
    { right. split; [done |]. by apply (keys_unique (post_delete reg)). }
    by left; left.
Qed.

(** X15.  In a process whose three triggers are connected, [bulk_delete]
    neither drops nor adds a receiver of [pre_delete] or [post_delete]:
    however it ends, each signal has the entries it had, though the three
    triggers may have moved to the end of the list. *)
Theorem bulk_delete_keeps_receivers xform (w : world Store) e :
  registry_wf (signals w) → triggers_connected (signals w) →
  (e ∈ pre_delete (signals (bulk_delete xform w).2)
   ↔ e ∈ pre_delete (signals w))
  ∧ (e ∈ post_delete (signals (bulk_delete xform w).2)
     ↔ e ∈ post_delete (signals w)).
Proof.
  intros Hwf Hconnected. rewrite bulk_delete_signals.
  destruct (build_db_queries xform w).1; [| done].
  split; [by apply restore_suspend_pre | by apply restore_suspend_post].
Qed.
End RegistryMore.

(** ** Bulk update of the validation status *)

Section BulkValidationStatusFacts.
Context {Store : Type} {site : Collaborators Store}
  {status_site : StatusCollaborators Store}.
Implicit Types (w : world Store).

Lemma keeps_signals_call_store {A} (f : Store → result A * Store) :
  keeps_signals (call_store f).
Proof. intros w. unfold call_store. by destruct (f (store w)). Qed.

Lemma keeps_signals_build (xform_ : XForm.t) :
  keeps_signals (build_db_queries xform_).
Proof. intros w. apply build_db_queries_signals. Qed.

(** X16.  [bulk_validation_status] never touches the signal registry,
    however it ends: unlike [bulk_delete] it suspends no receiver. *)
Theorem bulk_validation_status_keeps_signals xform real_user w :
  signals (bulk_validation_status xform real_user w).2 = signals w.
Proof.
  unfold bulk_validation_status.
  destruct (request_data w !! "validation_status.uid") as [uid|]; [| done].
  assert (keeps_signals (update_validation_statuses xform real_user uid))
    as Hkeeps.
  { unfold update_validation_statuses.
    apply keeps_signals_bind; [apply keeps_signals_call_store |].
    intros status.
    apply keeps_signals_bind; [apply keeps_signals_build |].
    intros [pq mq].
    apply keeps_signals_bind; [apply keeps_signals_call_store |].
    intros n.
    apply keeps_signals_bind; [apply keeps_signals_call_store |].
    intros _. apply keeps_signals_ret. }
  specialize (Hkeeps w).
  by destruct (update_validation_statuses _ _ _ _) as [[n | e] w'].
Qed.

(** X17.  When the payload carries a [validation_status.uid] and the
    resolver refuses it, [bulk_validation_status] raises the resolver's
    exception and no submission is updated in either store. *)
Theorem status_update_rejected xform real_user w uid status e w1 :
  request_data w !! "validation_status.uid" = Some uid →
  get_validation_status (store w) uid xform (username real_user) = Ok status →
  build_db_queries xform w = (Raise e, w1) →
  bulk_validation_status xform real_user w = (inl (Raised e), w1)
  ∧ store w1 = store w.
Proof.
  intros Huid Hstatus Hrun.
  assert (World (request_data w) (signals w) (store w) (trace w) = w) as Heta
    by by destruct w.
  split.
  - unfold bulk_validation_status, update_validation_statuses, bind,
      call_store. rewrite Huid, Hstatus, Heta, Hrun. done.
  - pose proof (build_db_queries_store xform w) as Hstore.
    by rewrite Hrun in Hstore.
Qed.

(** X18.  When the resolver accepts the payload and both updates succeed,
    the number answered is the number of rows PostgreSQL updated; MongoDB
    is updated after PostgreSQL, with the document filter of the resolver
    and the same status object. *)
Theorem status_update_success xform real_user w uid status
    postgres_query mongo_query w1 n st1 st2 :
  request_data w !! "validation_status.uid" = Some uid →
  get_validation_status (store w) uid xform (username real_user) = Ok status →
  build_db_queries xform w = (Ok (postgres_query, mongo_query), w1) →
  instance_filter_update (store w1) postgres_query status = (Ok n, st1) →
  bulk_update_validation_statuses st1 mongo_query status = (Ok (), st2) →
  bulk_validation_status xform real_user w
  = (inr n, World (request_data w1) (signals w1) st2 (trace w1)).
Proof.
  intros Huid Hstatus Hrun Hpg Hmongo.
  assert (World (request_data w) (signals w) (store w) (trace w) = w) as Heta
    by by destruct w.
  unfold bulk_validation_status, update_validation_statuses, bind, call_store.
  rewrite Huid, Hstatus, Heta, Hrun. cbn [request_data signals store trace].
  rewrite Hpg. cbn [request_data signals store trace]. by rewrite Hmongo.
Qed.

(** When the update in MongoDB raises after the update in
    PostgreSQL went through, [bulk_validation_status] raises that
    exception and the rows stay updated in PostgreSQL. *)
Lemma status_update_mongo_failure xform real_user w uid status
    postgres_query mongo_query w1 n st1 e st2 :
  request_data w !! "validation_status.uid" = Some uid →
  get_validation_status (store w) uid xform (username real_user) = Ok status →
  build_db_queries xform w = (Ok (postgres_query, mongo_query), w1) →
  instance_filter_update (store w1) postgres_query status = (Ok n, st1) →
  bulk_update_validation_statuses st1 mongo_query status = (Raise e, st2) →
  bulk_validation_status xform real_user w
  = (inl (Raised e), World (request_data w1) (signals w1) st2 (trace w1)).
Proof.
  intros Huid Hstatus Hrun Hpg Hmongo.
  assert (World (request_data w) (signals w) (store w) (trace w) = w) as Heta
    by by destruct w.
  unfold bulk_validation_status, update_validation_statuses, bind, call_store.
  rewrite Huid, Hstatus, Heta, Hrun. cbn [request_data signals store trace].
  rewrite Hpg. cbn [request_data signals store trace]. by rewrite Hmongo.
Qed.
End BulkValidationStatusFacts.

(** ** Labels *)

Section LabelsFacts.
Variable add_tags_to_instance :
  gmap string json → list string → bool * list string.

Lemma remove_same_length (label : string) (tags : list string) :
  length (Tags.remove label tags) = length tags ↔ label ∉ tags.
Proof.
  unfold Tags.remove. induction tags as [| name tags IH]; simpl.
  - split; [intros _; apply not_elem_of_nil | done].
  - rewrite not_elem_of_cons.
    pose proof (length_filter (λ name, name ≠ label) tags) as Hle.
    rewrite filter_cons. destruct (decide (name ≠ label)) as [Hne | Heq]; simpl.
    + rewrite <- IH. split; [intros [= ?]; auto | intros [_ ->]; done].
    + split; [lia | intros [Hne _]; by destruct Heq].
Qed.

Lemma nonempty_Some (l : string) : l ≠ ""%string → nonempty (Some l) = true.
Proof.
  intros Hne. simpl. apply negb_true_iff. by apply String.eqb_neq.
Qed.

(** X19.  [DELETE] with a label takes the label off the submission and
    answers with the names that remain.  The status is 404 when the
    submission carried the label, and 200 when it did not and nothing was
    removed. *)
Theorem labels_delete request_data_ (label : string) (tags : list string) :
  label ≠ ""%string →
  labels add_tags_to_instance "DELETE" request_data_ (Some label) tags
  = (LabelsResponse (Tags.remove label tags)
       (if bool_decide (label ∈ tags) then HTTP_404_NOT_FOUND
        else HTTP_200_OK),
     Tags.remove label tags)
  ∧ label ∉ Tags.remove label tags.
Proof.
  intros Hne. split.
  - unfold labels. rewrite (nonempty_Some _ Hne). cbn [String.eqb Ascii.eqb Bool.eqb andb].
    unfold Tags.count, Tags.names.
    case_bool_decide as Hin.
    + rewrite (proj2 (Z.eqb_neq _ _)); [done |].
      intros Hlen%Nat2Z.inj. symmetry in Hlen.
      by apply remove_same_length in Hlen.
    + rewrite (proj2 (Z.eqb_eq _ _)); [done |].
      f_equal. symmetry. by apply remove_same_length.
  - unfold Tags.remove. intros [Hl _]%list_elem_of_filter. done.
Qed.

(** X20.  [GET] answers 200 and changes no tag.  With a label it lists
    that label if the submission carries it and nothing otherwise; without
    one it lists every tag. *)
Theorem labels_get request_data_ (label : option string) (tags : list string) :
  let '(response, tags') :=
    labels add_tags_to_instance "GET" request_data_ label tags in
  tags' = tags
  ∧ labels_status response = HTTP_200_OK
  ∧ (nonempty label = false → labels_data response = tags)
  ∧ (∀ l, label = Some l → l ≠ ""%string →
       ∀ name, name ∈ labels_data response ↔ name = l ∧ l ∈ tags).
Proof.
  unfold labels. cbn [String.eqb Ascii.eqb Bool.eqb andb].
  destruct label as [l |].
  - destruct (nonempty (Some l)) eqn:Hl; cbn [andb labels_data labels_status];
      (split; [done |]); (split; [done |]); split; try done.
    + intros l' [= <-] _ name. unfold Tags.filter_name.
      rewrite list_elem_of_filter. split; [by intros [-> ?] | by intros [-> ?]].
    + intros l' [= <-] Hne. by rewrite nonempty_Some in Hl.
  - cbn [labels_data labels_status]. by repeat split.
Qed.

End LabelsFacts.

(** ** Validation status of one submission *)

Section ValidationStatusFacts.
Variable add_validation_status_to_instance : gmap string json → json → bool * json.
Variable remove_validation_status_from_instance : json → bool * json.

End ValidationStatusFacts.

(** ** Enketo links *)

Section EnketoFacts.
Variable get_enketo_submission_url : Z → option string → string → enketo_reply.

(** X22.  [enketo_edit] refuses in this order, and asks Enketo for
    nothing when it does: an account whose [require_auth] is off, whatever
    the object; then a form in place of a submission; then a missing or
    empty [return_url]. *)
Theorem enketo_edit_refusals (require_auth : bool) (object_ : lookup_object)
    (return_url : option string) :
  (require_auth = false →
   enketo_edit get_enketo_submission_url require_auth object_ return_url
   = inl RequireAuthDisabled)
  ∧ (require_auth = true → ∀ xform, object_ = AnXForm xform →
     enketo_edit get_enketo_submission_url require_auth object_ return_url
     = inl (EnketoRaised (ParseError "Data id not provided.")))
  ∧ (require_auth = true → ∀ pk, object_ = AnInstance pk →
     nonempty return_url = false →
     enketo_edit get_enketo_submission_url require_auth object_ return_url
     = inl (EnketoRaised (ParseError "`return_url` not provided."))).
Proof.
  unfold enketo_edit, _enketo_request. split; [by intros -> |].
  split; [by intros -> xform -> |].
  intros -> pk -> Hurl. by rewrite Hurl.
Qed.

(** [enketo_view] of a submission never raises: it needs no
    [return_url], and an [EnketoError] becomes the [detail] of an ordinary
    answer. *)
Lemma enketo_view_answers (pk : Z) (return_url : option string) :
  ∃ data, enketo_view get_enketo_submission_url (AnInstance pk) return_url
          = Ok data
    ∧ ((∃ url, get_enketo_submission_url pk return_url "view" = EnketoUrl url
               ∧ data = {[ "url"%string := JStr url ]})
       ∨ (∃ msg, get_enketo_submission_url pk return_url "view"
                 = EnketoError msg
                 ∧ data = {[ "detail"%string := JStr msg ]})).
Proof.
  unfold enketo_view, _enketo_request.
  cbn [String.eqb Ascii.eqb Bool.eqb andb negb]. rewrite andb_false_r.
  destruct (get_enketo_submission_url pk return_url "view") as [url | msg];
    eexists; (split; [done |]); [left | right]; by eexists.
Qed.
End EnketoFacts.

(** ** Finding the form and the submission *)

Section LookupFacts.
Variable int_of_str : string → option Z.
Variable all_forms : list FormRow.t.
Variable filter_backends : list FormRow.t → list FormRow.t.
Variable all_instances : list (Z * Z).

Lemma filter_nil_iff {A} (P : A → Prop) `{!∀ x, Decision (P x)} (l : list A) :
  filter P l = [] ↔ ∀ x, x ∈ l → ¬ P x.
Proof.
  split.
  - intros Hnil x Hin HP.
    assert (x ∈ filter P l) as Hx by by apply list_elem_of_filter.
    rewrite Hnil in Hx. by apply not_elem_of_nil in Hx.
  - intros Hnone. destruct (filter P l) as [| x rest] eqn:Hf; [done |].
    assert (x ∈ filter P l) as [HP Hin]%list_elem_of_filter
      by (rewrite Hf; left).
    by destruct (Hnone x Hin).
Qed.


(** X24.  A form that the query set does not hold is found through
    [shared_data] alone: when no form with the key has [shared_data] set,
    the answer is [Http404], also for a form whose [shared] is set and
    which [_get_public_forms_queryset] counts as public. *)
Theorem shared_alone_is_not_found (qs : list FormRow.t) (pk : Z) :
  (∀ row, row ∈ qs → FormRow.pk row ≠ pk) →
  (∀ row, row ∈ all_forms → FormRow.pk row = pk →
          FormRow.shared_data row = false) →
  _filtered_or_shared_qs all_forms qs pk
  = inl (Http404 "No data matches with given query.").
Proof.
  intros Hqs Hall. unfold _filtered_or_shared_qs.
  rewrite bool_decide_eq_true_2 by by apply filter_nil_iff.
  rewrite bool_decide_eq_true_2; [done |].
  apply filter_nil_iff. intros row Hin [Hpk Hsd].
  by rewrite (Hall row Hin Hpk) in Hsd.
Qed.

(** X25.  With a key in the URL, the fallback to [shared_data] forms looks
    at every form and at no tag: when the [tags] parameter rejects each
    form with that key that the filter backends let through, or the
    backends let none through, a form with the key and [shared_data] set
    is returned all the same. *)
Theorem shared_data_bypasses_filters (queryset : list FormRow.t)
    (pk_ : string) (tags : option string) (n : Z) (row : FormRow.t) :
  pk_ ≠ ""%string → int_of_str pk_ = Some n →
  (∀ r, r ∈ filter_backends queryset → FormRow.pk r = n →
        ∃ t, tags = Some t ∧ t ≠ ""%string
             ∧ ¬ Exists (λ name, name ∈ split_on "," t) (FormRow.tags r)) →
  row ∈ all_forms → FormRow.pk row = n → FormRow.shared_data row = true →
  ∃ rows, filter_queryset int_of_str all_forms filter_backends queryset
            (Some pk_) tags = inr rows
          ∧ row ∈ rows.
Proof.
  intros Hne Hint Hhidden Hin Hpk Hsd. unfold filter_queryset.
  rewrite (nonempty_Some _ Hne), Hint.
  set (qs := match tags with Some _ => _ | None => _ end).
  assert (∀ r, r ∈ qs → FormRow.pk r ≠ n) as Hqs.
  { intros r Hr Hrpk. subst qs.
    destruct tags as [t |].
    - destruct (nonempty (Some t)) eqn:Ht.
      + apply list_elem_of_filter in Hr as [Htag Hr].
        destruct (Hhidden r Hr Hrpk) as (t' & [= <-] & _ & Hno). done.
      + destruct (Hhidden r Hr Hrpk) as (t' & [= <-] & Hne' & _).
        by rewrite (nonempty_Some _ Hne') in Ht.
    - by destruct (Hhidden r Hr Hrpk) as (t' & [=] & _). }
  unfold _filtered_or_shared_qs.
  rewrite bool_decide_eq_true_2 by by apply filter_nil_iff.
  assert (row ∈ filter (λ r, FormRow.pk r = n ∧ FormRow.shared_data r = true)
                  all_forms) as Hrow by by apply list_elem_of_filter.
  rewrite bool_decide_eq_false_2.
  - by eexists.
  - intros Hnil. rewrite Hnil in Hrow. by apply not_elem_of_nil in Hrow.
Qed.

(** X26.  Without a key in the URL, [filter_queryset] never raises, the
    empty answer included: it returns the forms the filter backends let
    through, and with a [tags] parameter those of them that carry at least
    one of the comma-separated tags. *)
Theorem filter_queryset_without_pk (queryset : list FormRow.t)
    (pk tags : option string) :
  nonempty pk = false →
  ∃ rows, filter_queryset int_of_str all_forms filter_backends queryset
            pk tags = inr rows
    ∧ (nonempty tags = false → rows = filter_backends queryset)
    ∧ (∀ t, tags = Some t → t ≠ ""%string →
         ∀ r, r ∈ rows ↔
              r ∈ filter_backends queryset
              ∧ ∃ name, name ∈ FormRow.tags r ∧ name ∈ split_on "," t).
Proof.
  intros Hpk. unfold filter_queryset.
  eexists. split.
  { destruct pk as [pk_ |]; [by rewrite Hpk | done]. }
  split.
  - intros Htags. destruct tags; [by rewrite Htags | done].
  - intros t -> Hne r. rewrite (nonempty_Some _ Hne).
    unfold filter_tags. rewrite list_elem_of_filter, Exists_exists.
    tauto.
Qed.

(** X27.  [get_object] returns a submission only when both keys of the URL
    are accepted by [int()] and the submission belongs to the form of the
    URL. *)
Theorem get_object_instance_belongs (xform : XForm.t)
    (pk dataid : option string) (instance_pk : Z) :
  get_object int_of_str all_instances xform pk dataid
  = inr (AnInstance instance_pk) →
  ∃ pk_ dataid_ form_pk,
    pk = Some pk_ ∧ dataid = Some dataid_
    ∧ int_of_str pk_ = Some form_pk
    ∧ int_of_str dataid_ = Some instance_pk
    ∧ (instance_pk, form_pk) ∈ all_instances.
Proof.
  unfold get_object.
  destruct pk as [pk_ |], dataid as [dataid_ |]; try discriminate.
  destruct (int_of_str pk_) as [form_pk |] eqn:Hpk; [| discriminate].
  destruct (int_of_str dataid_) as [i |] eqn:Hdataid; [| discriminate].
  case_bool_decide as Hin; [| discriminate].
  intros [= <-]. by exists pk_, dataid_, form_pk.
Qed.
End LookupFacts.

(** ** The command [update_attachment_storage_bytes] *)

Section StorageFacts.
Import Storage.
#[local] Set Warnings "-clear-no-such-hyp".
Variable replace_values :
  option (gmap string json) → gmap string json → option (gmap string json).
Variable exclude_selects : option (gmap string json) → bool.
Variable new_profile : UserProfile.
Variable verbosity : Z.

#[local] Abbreviation suspend_submissions := (suspend_submissions new_profile).
#[local] Abbreviation update_profile_row := (update_profile_row replace_values).
#[local] Abbreviation loop_body := (loop_body replace_values new_profile verbosity).
#[local] Abbreviation release_locks := (release_locks replace_values exclude_selects).
#[local] Abbreviation handle :=
  (handle replace_values exclude_selects new_profile verbosity).

Lemma attachment_total_ext (d d' : db) k :
  attachments d = attachments d' → attachment_total d k = attachment_total d' k.
Proof. unfold attachment_total. by intros ->. Qed.

Lemma user_total_ext (d d' : db) fs u :
  attachments d = attachments d' → user_total d fs u = user_total d' fs u.
Proof.
  intros Hatt. unfold user_total. f_equal. apply list_fmap_ext.
  intros _ f _. by rewrite (attachment_total_ext d d').
Qed.

Lemma user_total_snoc (d : db) fs x u :
  user_total d (fs ++ [x]) u
  = user_total d fs u
    + (if bool_decide (user_id x = u)
       then default 0 (attachment_total d (pk x)) else 0).
Proof.
  unfold user_total. rewrite filter_app, fmap_app, foldr_app.
  rewrite filter_cons, filter_nil.
  case_bool_decide as Hu.
  - rewrite decide_True by done. simpl.
    generalize (default 0 (attachment_total d (pk x))). intros t.
    induction ((λ f, default 0 (attachment_total d (pk f)))
                 <$> filter (λ f, user_id f = u) fs) as [| a l IH]; simpl; lia.
  - rewrite decide_False by done. simpl. lia.
Qed.

Lemma suspend_other v u (d : db) :
  u ≠ v → profiles (suspend_submissions v d) !! u = profiles d !! u.
Proof.
  intros Hne. unfold Storage.suspend_submissions.
  destruct (negb _); simpl; by rewrite !lookup_insert_ne.
Qed.

Lemma suspend_bytes v u (d : db) :
  is_Some (profiles d !! u) →
  bytes_of (suspend_submissions v d) u = bytes_of d u.
Proof.
  intros [p Hp]. unfold bytes_of.
  destruct (decide (u = v)) as [-> | Hne]; [| by rewrite suspend_other].
  unfold Storage.suspend_submissions. rewrite Hp.
  destruct (negb _); simpl; by rewrite lookup_insert_eq.
Qed.

Lemma suspend_creates v (d : db) :
  is_Some (profiles (suspend_submissions v d) !! v).
Proof.
  unfold Storage.suspend_submissions.
  destruct (negb _); simpl; rewrite lookup_insert_eq; eauto.
Qed.

Lemma suspend_present v u (d : db) :
  is_Some (profiles d !! u) →
  is_Some (profiles (suspend_submissions v d) !! u).
Proof.
  intros Hu. destruct (decide (u = v)) as [-> | Hne].
  - apply suspend_creates.
  - by rewrite suspend_other.
Qed.

Lemma suspend_tables v (d : db) :
  attachments (suspend_submissions v d) = attachments d
  ∧ form_storage (suspend_submissions v d) = form_storage d.
Proof. unfold Storage.suspend_submissions. by destruct (negb _). Qed.

Lemma update_row_other (l : form) t u (d : db) :
  u ≠ user_id l → profiles (update_profile_row l t d) !! u = profiles d !! u.
Proof.
  intros Hne. unfold Storage.update_profile_row.
  destruct (profiles d !! user_id l); simpl; [| done].
  by rewrite lookup_insert_ne.
Qed.

Lemma update_row_bytes (l : form) t (d : db) :
  is_Some (profiles d !! user_id l) →
  bytes_of (update_profile_row l t d) (user_id l) = Some t.
Proof.
  intros [p Hp]. unfold bytes_of, Storage.update_profile_row.
  rewrite Hp. simpl. by rewrite lookup_insert_eq.
Qed.

Lemma update_row_present (l : form) t u (d : db) :
  is_Some (profiles d !! u) →
  is_Some (profiles (update_profile_row l t d) !! u).
Proof.
  intros Hu. unfold Storage.update_profile_row.
  destruct (profiles d !! user_id l) eqn:Hl; simpl; [| done].
  destruct (decide (u = user_id l)) as [-> | Hne].
  - rewrite lookup_insert_eq. eauto.
  - by rewrite lookup_insert_ne.
Qed.

#[local] Abbreviation change_user :=
  (change_user replace_values new_profile verbosity).

Lemma change_user_tables st x :
  attachments (database (change_user st x)) = attachments (database st)
  ∧ form_storage (database (change_user st x)) = form_storage (database st)
  ∧ total_per_user (change_user st x) = total_per_user st.
Proof.
  unfold Storage.change_user.
  destruct (last_xform st) as [l |]; [case_bool_decide |]; simpl;
    try done; by destruct (suspend_tables (user_id x) (database st)) as [-> ->].
Qed.

Lemma total_of_insert (totals : gmap Z Z) v t u :
  total_of (<[v := t]> totals) u
  = if bool_decide (v = u) then t else total_of totals u.
Proof.
  unfold total_of. case_bool_decide as Hv.
  - subst. by rewrite lookup_insert_eq.
  - by rewrite lookup_insert_ne.
Qed.

Lemma change_user_profiles d done st x :
  loop_invariant d done st →
  (∀ u, u ∈ user_id <$> done ++ [x] →
        is_Some (profiles (database (change_user st x)) !! u))
  ∧ (∀ u, u ∈ user_id <$> done → u ≠ user_id x →
          bytes_of (database (change_user st x)) u
          = Some (user_total d done u)).
Proof.
  intros (Hatt & Htotals & Hlast & Hpresent & Hbytes).
  unfold Storage.change_user. rewrite Hlast.
  destruct (last done) as [l |] eqn:Hl; simpl.
  - assert (user_id l ∈ user_id <$> done) as Hluser.
    { apply list_elem_of_fmap_2. apply last_Some in Hl as [done' ->].
      apply elem_of_app. right. by left. }
    case_bool_decide as Hchange; simpl.
    + split.
      * intros u Hu. apply update_row_present.
        rewrite fmap_app in Hu. apply elem_of_app in Hu as [Hu | Hu].
        -- by apply suspend_present, Hpresent.
        -- apply list_elem_of_singleton in Hu as ->. apply suspend_creates.
      * intros u Hu Hne.
        destruct (decide (u = user_id l)) as [-> | Hul].
        -- rewrite update_row_bytes by by apply suspend_present, Hpresent.
           by rewrite Htotals.
        -- unfold bytes_of. rewrite update_row_other by done.
           fold (bytes_of (suspend_submissions (user_id x) (database st)) u).
           rewrite suspend_bytes by by apply Hpresent.
           apply Hbytes; [done |]. simpl. congruence.
    + split.
      * intros u Hu. rewrite fmap_app in Hu.
        apply elem_of_app in Hu as [Hu | Hu]; [by apply Hpresent |].
        apply list_elem_of_singleton in Hu as ->. simpl.
        rewrite <- Hchange. by apply Hpresent.
      * intros u Hu Hne. apply Hbytes; [done |]. simpl. congruence.
  - apply last_None in Hl as ->. split.
    + intros u Hu. simpl in Hu. apply list_elem_of_singleton in Hu as ->.
      apply suspend_creates.
    + by intros u ?%not_elem_of_nil.
Qed.

Lemma loop_body_split st x :
  attachments (database (loop_body st x))
  = attachments (database (change_user st x))
  ∧ profiles (database (loop_body st x))
    = profiles (database (change_user st x))
  ∧ last_xform (loop_body st x) = Some x
  ∧ ∀ u, total_of (total_per_user (loop_body st x)) u
         = total_of (total_per_user (change_user st x)) u
           + (if bool_decide (user_id x = u)
              then default 0
                     (attachment_total (database (change_user st x)) (pk x))
              else 0).
Proof.
  unfold Storage.loop_body. fold (change_user st x).
  destruct (attachment_total _ _) as [t |] eqn:Ht; simpl.
  - destruct (t =? 0) eqn:Hzero; simpl.
    + apply Z.eqb_eq in Hzero as ->. repeat split.
      intros u. case_bool_decide; lia.
    + repeat split. intros u. rewrite total_of_insert.
      case_bool_decide as Hu; [by subst | lia].
  - repeat split. intros u. case_bool_decide; lia.
Qed.

Lemma loop_step d done st x :
  loop_invariant d done st → loop_invariant d (done ++ [x]) (loop_body st x).
Proof.
  intros Hinv.
  destruct (change_user_profiles d done st x Hinv) as [Hpresent' Hbytes'].
  destruct (change_user_tables st x) as (Hatt' & _ & Htotals').
  destruct (loop_body_split st x) as (Hatt & Hprofiles & Hlast & Htotals).
  destruct Hinv as (Hatt0 & Htotals0 & _).
  split; [by rewrite Hatt, Hatt' |]. split; [| split; [| split]].
  - intros u. rewrite Htotals, Htotals', Htotals0, user_total_snoc.
    by rewrite (attachment_total_ext _ d) by by rewrite Hatt'.
  - by rewrite last_snoc.
  - intros u Hu. rewrite Hprofiles. by apply Hpresent'.
  - intros u Hu Hne. rewrite last_snoc in Hne. simpl in Hne.
    assert (u ≠ user_id x) as Hux by congruence.
    unfold bytes_of. rewrite Hprofiles. fold (bytes_of (database (change_user st x)) u).
    rewrite fmap_app in Hu. apply elem_of_app in Hu as [Hu | Hu].
    + rewrite Hbytes' by done. rewrite user_total_snoc.
      rewrite bool_decide_eq_false_2 by congruence. f_equal. lia.
    + by apply list_elem_of_singleton in Hu.
Qed.

Lemma loop_run d fs st done :
  loop_invariant d done st →
  loop_invariant d (done ++ fs) (fold_left loop_body fs st).
Proof.
  revert st done. induction fs as [| x fs IH]; intros st done Hinv; simpl.
  - by rewrite app_nil_r.
  - rewrite (cons_middle x done fs), app_assoc. by apply IH, loop_step.
Qed.

Lemma user_total_cons (d : db) x fs u :
  user_total d (x :: fs) u
  = (if bool_decide (user_id x = u)
     then default 0 (attachment_total d (pk x)) else 0)
    + user_total d fs u.
Proof.
  unfold user_total. rewrite filter_cons.
  case_bool_decide; [by rewrite decide_True | by rewrite decide_False].
Qed.

Lemma user_total_Permutation (d : db) fs fs' u :
  fs ≡ₚ fs' → user_total d fs u = user_total d fs' u.
Proof.
  induction 1 as [| x fs fs' _ IH | x y fs | fs fs' fs'' _ IH1 _ IH2].
  - done.
  - by rewrite !user_total_cons, IH.
  - rewrite !user_total_cons. lia.
  - by rewrite IH1.
Qed.

Lemma user_total_filter (d : db) (P : form → Prop) `{!∀ f, Decision (P f)}
    fs u :
  (∀ f, user_id f = u → P f) →
  user_total d (filter P fs) u = user_total d fs u.
Proof.
  intros HP. induction fs as [| x fs IH]; [done |].
  rewrite filter_cons. destruct (decide (P x)) as [Hx | Hx].
  - by rewrite !user_total_cons, IH.
  - rewrite user_total_cons, IH.
    rewrite bool_decide_eq_false_2; [done |]. intros Hu. by apply Hx, HP.
Qed.

Lemma release_locks_tables (d : db) :
  attachments (release_locks d) = attachments d
  ∧ form_storage (release_locks d) = form_storage d
  ∧ forms (release_locks d) = forms d.
Proof. done. Qed.

Lemma xforms_users (d : db) u :
  u ∈ user_id <$> xforms d
  ↔ (u ∉ up_queryset d) ∧ (u ∈ user_id <$> forms d).
Proof.
  unfold xforms. rewrite merge_sort_Permutation.
  rewrite !list_elem_of_fmap. split.
  - intros (f & -> & [Hup Hf]%list_elem_of_filter). split; [done | eauto].
  - intros (Hup & f & -> & Hf). exists f. split; [done |].
    by apply list_elem_of_filter.
Qed.

(** X28.  After the command, each user who owns a form and whose profile
    is not marked complete has, as [attachment_storage_bytes], the sum of
    the sizes of the attachments of all their forms; a form without
    attachments counts for nothing. *)
Theorem handle_profile_totals (d : db) (uid : Z) :
  uid ∈ user_id <$> forms d →
  uid ∉ up_queryset (release_locks d) →
  bytes_of (handle d).1 uid = Some (user_total d (forms d) uid).
Proof.
  intros Hforms Hup. unfold Storage.handle. cbn [fst].
  set (d1 := release_locks d). set (fs := xforms d1).
  set (st0 := {| database := d1; total_per_user := ∅; last_xform := None;
                 stdout := [] |}).
  assert (loop_invariant d1 fs (fold_left loop_body fs st0)) as Hinv.
  { apply (loop_run d1 fs st0 []). repeat split; try done.
    - by intros u ?%not_elem_of_nil.
    - by intros u ?%not_elem_of_nil. }
  destruct Hinv as (_ & Htotals & Hlast & Hpresent & Hbytes).
  assert (uid ∈ user_id <$> fs) as Hfs by by apply xforms_users.
  assert (user_total d1 fs uid = user_total d (forms d) uid) as Htotal.
  { rewrite (user_total_ext d1 d) by done. subst fs. unfold xforms.
    rewrite (user_total_Permutation d _ _ uid (merge_sort_Permutation _ _)).
    apply user_total_filter. by intros f ->. }
  rewrite Hlast. destruct (last fs) as [l |] eqn:Hl.
  - cbn [database Storage.update_user_profile].
    destruct (decide (uid = user_id l)) as [-> | Hne].
    + rewrite update_row_bytes by by apply Hpresent.
      by rewrite Htotals, Htotal.
    + unfold bytes_of. rewrite update_row_other by done.
      rewrite <- Htotal. apply Hbytes; [done |]. simpl. congruence.
  - apply last_None in Hl. rewrite Hl in Hfs. by apply not_elem_of_nil in Hfs.
Qed.

(** [attachment_storage_bytes] of a form once it has been through the
    loop. *)
Lemma loop_body_form_storage st x k :
  form_storage (database (loop_body st x)) !! k
  = match attachment_total (database st) (pk x) with
    | Some t =>
        if bool_decide (k = pk x ∧ t ≠ 0) then Some t
        else form_storage (database st) !! k
    | None => form_storage (database st) !! k
    end.
Proof.
  destruct (change_user_tables st x) as (Hatt & Hstorage & _).
  unfold Storage.loop_body. fold (change_user st x).
  rewrite (attachment_total_ext _ (database st)) by done.
  destruct (attachment_total _ _) as [t |]; simpl; [| by rewrite Hstorage].
  destruct (t =? 0) eqn:Hzero; simpl.
  - apply Z.eqb_eq in Hzero as ->.
    rewrite bool_decide_eq_false_2 by (by intros [_ ?]). by rewrite Hstorage.
  - apply Z.eqb_neq in Hzero. rewrite Hstorage. case_bool_decide as Hk.
    + destruct Hk as [-> _]. by rewrite lookup_insert_eq.
    + rewrite lookup_insert_ne; [done |]. intros <-. by apply Hk.
Qed.

Lemma loop_body_attachments st x :
  attachments (database (loop_body st x)) = attachments (database st).
Proof.
  destruct (loop_body_split st x) as (-> & _).
  by destruct (change_user_tables st x) as (-> & _).
Qed.

Lemma loop_form_storage (d : db) fs st k :
  attachments (database st) = attachments d →
  form_storage (database (fold_left loop_body fs st)) !! k
  = match attachment_total d k with
    | Some t =>
        if bool_decide (k ∈ pk <$> fs ∧ t ≠ 0) then Some t
        else form_storage (database st) !! k
    | None => form_storage (database st) !! k
    end.
Proof.
  revert st. induction fs as [| x fs IH]; intros st Hatt; cbn [fold_left].
  - destruct (attachment_total d k); [| done].
    case_bool_decide as Hk; [| done].
    by destruct Hk as [?%not_elem_of_nil _].
  - rewrite IH by by rewrite loop_body_attachments.
    rewrite loop_body_form_storage.
    rewrite (attachment_total_ext (database st) d) by done.
    rewrite fmap_cons.
    destruct (decide (k = pk x)) as [-> | Hne].
    + destruct (attachment_total d (pk x)) as [t |]; [| done].
      repeat case_bool_decide; try done; exfalso; set_solver.
    + destruct (attachment_total d k) as [t |],
        (attachment_total d (pk x)) as [t' |];
        repeat case_bool_decide; try done; exfalso; set_solver.
Qed.

(** X29.  After the command, a form it went through whose attachments
    add up to a number of bytes other than zero has that number as
    [attachment_storage_bytes]; every other form keeps the number it had,
    so that of a form left without attachments is not put back to zero. *)
Theorem handle_form_storage (d : db) (k : Z) :
  form_storage (handle d).1 !! k
  = match attachment_total d k with
    | Some t =>
        if bool_decide (k ∈ pk <$> xforms (release_locks d) ∧ t ≠ 0)
        then Some t
        else form_storage d !! k
    | None => form_storage d !! k
    end.
Proof.
  unfold Storage.handle. cbn [fst].
  set (st0 := {| database := release_locks d; total_per_user := ∅;
                 last_xform := None; stdout := [] |}).
  pose proof (loop_form_storage d (xforms (release_locks d)) st0 k eq_refl)
    as Hloop.
  destruct (last_xform (fold_left loop_body _ st0)); exact Hloop.
Qed.

(** The loop leaves alone the profile of a user it meets no form of. *)
Lemma loop_other_profiles fs st uid :
  uid ∉ user_id <$> fs →
  (∀ l, last_xform st = Some l → user_id l ≠ uid) →
  let st' := fold_left loop_body fs st in
  profiles (database st') !! uid = profiles (database st) !! uid
  ∧ ∀ l, last_xform st' = Some l → user_id l ≠ uid.
Proof.
  revert st. induction fs as [| x fs IH]; intros st Hfs Hlast; simpl; [done |].
  rewrite fmap_cons, not_elem_of_cons in Hfs. destruct Hfs as [Hx Hfs].
  destruct (loop_body_split st x) as (_ & Hprofiles & Hlast' & _).
  destruct (IH (loop_body st x) Hfs) as [Hsame Hlast''].
  { intros l. rewrite Hlast'. by intros [= <-]. }
  split; [| done]. rewrite Hsame, Hprofiles.
  unfold Storage.change_user.
  destruct (last_xform st) as [l |] eqn:Hl; [case_bool_decide |];
    cbn [database Storage.update_user_profile].
  - rewrite update_row_other by (symmetry; by apply Hlast).
    by rewrite suspend_other.
  - done.
  - by rewrite suspend_other.
Qed.

(** X30.  The command leaves the profile of a user marked complete as it
    is, and goes through none of that user's forms. *)
Theorem handle_skips_complete (d : db) (uid : Z) (profile : UserProfile) :
  profiles d !! uid = Some profile →
  is_complete profile = true →
  profiles (handle d).1 !! uid = Some profile
  ∧ uid ∉ user_id <$> xforms (release_locks d).
Proof.
  intros Hprofile Hcomplete.
  assert (profiles (release_locks d) !! uid = Some profile) as Hreleased.
  { unfold Storage.release_locks. simpl.
    by rewrite lookup_fmap, Hprofile; simpl; rewrite Hcomplete. }
  assert (uid ∉ user_id <$> xforms (release_locks d)) as Hskipped.
  { rewrite xforms_users. intros [Hup _]. apply Hup.
    unfold up_queryset. apply elem_of_dom. exists profile.
    apply map_lookup_filter_Some. split; [done |]. simpl. by rewrite Hcomplete. }
  split; [| done]. unfold Storage.handle. cbn [fst].
  set (st0 := {| database := release_locks d; total_per_user := ∅;
                 last_xform := None; stdout := [] |}).
  destruct (loop_other_profiles (xforms (release_locks d)) st0 uid Hskipped)
    as [Hsame Hlast]; [done |].
  destruct (last_xform (fold_left loop_body _ st0)) as [l |] eqn:Hl.
  - cbn [database Storage.update_user_profile].
    rewrite update_row_other by (symmetry; by apply Hlast). by rewrite Hsame.
  - by rewrite Hsame.
Qed.
End StorageFacts.

(** ** The further properties on the concrete deployment *)

Section MoreRuns.
Import Demo DemoMore Signals.

Ltac compute_eq := reflexivity.
Ltac by_decision := apply (bool_decide_unpack _); vm_compute; exact I.
Ltac absent := let v := fresh in let H := fresh in intros v H; discriminate H.

Lemma selectors_conflict_witness :
  let w := request {[ "query" := JDict monthly;
                      "submission_ids" := JList [JInt 1];
                      "confirm" := JBool true ]} in
  build_db_queries (site := deployment true) survey w
  = (Raise (ValidationError QueryAndIdsTogether), w).
Proof.
  intros w.
  apply (selectors_conflict (site := deployment true) survey w
           (JDict monthly) (JList [JInt 1])); compute_eq.
Defined.

Lemma invalid_query_rejected_witness :
  let w := request {[ "query" := JList [JStr "kind"]; "confirm" := JBool true ]} in
  build_db_queries (site := deployment true) survey w
  = (Raise (ValidationError (InvalidQuery (JList [JStr "kind"]))), w).
Proof.
  intros w.
  apply (invalid_query_rejected (site := deployment true) survey w);
    [compute_eq | compute_eq | intros d; discriminate | absent].
Defined.



Lemma submission_ids_type_error_witness :
  let w := request {[ "submission_ids" := JList [JInt 1; JNull; JStr "x"] ]} in
  build_db_queries (site := deployment true) survey w = (Raise TypeError, w).
Proof.
  intros w.
  apply (submission_ids_type_error (site := deployment true) survey w
           (JList [JInt 1; JNull; JStr "x"]) [JInt 1] JNull [JStr "x"]);
    [absent | compute_eq | compute_eq | compute_eq | | by left].
  constructor; [by exists 1 | constructor].
Defined.

Lemma submission_ids_not_iterable_witness :
  let w := request {[ "submission_ids" := JInt 5 ]} in
  build_db_queries (site := deployment true) survey w = (Raise TypeError, w).
Proof.
  intros w.
  apply (submission_ids_not_iterable (site := deployment true) survey w (JInt 5));
    [absent | compute_eq | compute_eq | intros; discriminate ..].
Defined.

Lemma confirm_ignored_with_selector_witness :
  let w := request {[ "query" := JDict monthly ]} in
  (build_db_queries (site := deployment true) survey
     (with_payload (<["confirm" := JBool true]> (request_data w)) w)).1
  = (build_db_queries (site := deployment true) survey w).1.
Proof.
  intros w.
  apply (confirm_ignored_with_selector (site := deployment true) survey w
           (JBool true)).
  left. exists (JDict monthly). split; compute_eq.
Defined.

Lemma resolved_shape_witness :
  (narrowed (site := deployment true) survey [JInt 1; JInt 2]).2
    !! "kind"%string = None.
Proof.
  set (w := request {[ "query" := JDict monthly ]}).
  destruct (resolved_shape (site := deployment true) survey w
              (narrowed (site := deployment true) survey [JInt 1; JInt 2]).1
              (narrowed (site := deployment true) survey [JInt 1; JInt 2]).2
              (world_after_query (site := deployment true) survey monthly w))
    as [_ Hkeys]; [compute_eq |].
  apply Hkeys; discriminate.
Defined.


Lemma bulk_delete_rejected_witness :
  let w := request {[ "confirm" := JStr "yes" ]} in
  bulk_delete (site := deployment true) survey w
  = (Raise NoConfirmationProvidedException, w).
Proof.
  intros w.
  apply (bulk_delete_rejected (site := deployment true) survey w
           NoConfirmationProvidedException w).
  compute_eq.
Defined.

Lemma bulk_delete_success_witness :
  let w := request {[ "confirm" := JBool true ]} in
  (bulk_delete (site := three_deleted) survey w).1 = Ok (SubmissionsDeleted 3).
Proof.
  intros w.
  rewrite (bulk_delete_success (site := three_deleted) survey w
             (form_filter survey) (base_query (site := three_deleted) survey) w
             5 {[ "logger.Instance"%string := 3; "logger.Note"%string := 2 ]}
             docs [] [] []); compute_eq.
Defined.

Lemma bulk_delete_mongo_failure_witness :
  let w := request {[ "confirm" := JBool true ]} in
  let run := bulk_delete (site := deployment false) survey w in
  run.1 = Raise (CollaboratorError "connection refused")
  ∧ trace run.2
    = [InstanceFilterDelete (form_filter survey);
       LoggingWarning "Instance objects cannot be found";
       MongoBulkDelete (base_query (site := deployment false) survey)].
Proof.
  intros w run. subst run.
  rewrite (bulk_delete_mongo_failure (site := deployment false) survey w
             (form_filter survey) (base_query (site := deployment false) survey)
             w 0 ∅ docs (CollaboratorError "connection refused") docs);
    [split; compute_eq | compute_eq ..].
Defined.

Lemma bulk_delete_postgres_failure_witness :
  let w := request {[ "confirm" := JBool true ]} in
  let run := bulk_delete (site := postgres_down) survey w in
  run.1 = Raise (CollaboratorError "server closed the connection")
  ∧ trace run.2 = [InstanceFilterDelete (form_filter survey)].
Proof.
  intros w run. subst run.
  rewrite (bulk_delete_postgres_failure (site := postgres_down) survey w
             (form_filter survey) (base_query (site := postgres_down) survey)
             w (CollaboratorError "server closed the connection") docs);
    [split; compute_eq | compute_eq ..].
Defined.

Lemma bulk_delete_connects_triggers_witness :
  let w := World {[ "confirm" := JBool true ]} bare_registry docs [] in
  triggers_connected (signals (bulk_delete (site := deployment true) survey w).2).
Proof.
  intros w.
  apply (bulk_delete_connects_triggers (site := deployment true) survey w
           (form_filter survey, base_query (site := deployment true) survey)).
  - split; by_decision.
  - compute_eq.
Defined.

Lemma bulk_delete_keeps_receivers_witness :
  let w := request {[ "confirm" := JBool true ]} in
  let e := (make_key _remove_from_mongo (Some ParsedInstance) None,
            _remove_from_mongo) in
  (e ∈ pre_delete (signals (bulk_delete (site := deployment false) survey w).2)
   ↔ e ∈ pre_delete (signals w))
  ∧ (e ∈ post_delete (signals (bulk_delete (site := deployment false) survey w).2)
     ↔ e ∈ post_delete (signals w)).
Proof.
  intros w e.
  apply (bulk_delete_keeps_receivers (site := deployment false) survey w e).
  - split; by_decision.
  - unfold triggers_connected, connected. repeat split; by_decision.
Defined.

Lemma status_update_rejected_witness :
  let w := request {[ "validation_status.uid" := approved ]} in
  bulk_validation_status (site := deployment true)
    (status_site := status_deployment) survey bob w
  = (inl (Raised NoConfirmationProvidedException), w).
Proof.
  intros w.
  apply (status_update_rejected (site := deployment true)
           (status_site := status_deployment) survey bob w approved
           (JDict {[ "uid" := approved; "by_whom" := JStr "bob" ]})
           NoConfirmationProvidedException w); compute_eq.
Defined.

Lemma status_update_success_witness :
  let w := request {[ "validation_status.uid" := approved;
                      "submission_ids" := JList [JInt 1] ]} in
  (bulk_validation_status (site := deployment true)
     (status_site := status_deployment) survey bob w).1 = inr 2.
Proof.
  intros w.
  set (status := JDict {[ "uid" := approved; "by_whom" := JStr "bob" ]}).
  rewrite (status_update_success (site := deployment true)
             (status_site := status_deployment) survey bob w approved status
             (narrowed (site := deployment true) survey [JInt 1]).1
             (narrowed (site := deployment true) survey [JInt 1]).2
             w 2 docs
             ((λ doc, <["_validation_status" := status]> doc) <$> docs));
    compute_eq.
Defined.

Lemma labels_delete_witness :
  labels (λ _ tags, (false, tags)) "DELETE" ∅ (Some "urgent"%string)
    ["urgent"; "done"]%string
  = (LabelsResponse ["done"%string] HTTP_404_NOT_FOUND, ["done"%string]).
Proof.
  destruct (labels_delete (λ _ tags, (false, tags)) ∅ "urgent"
              ["urgent"; "done"]%string) as [Hanswer _]; [discriminate |].
  etransitivity; [exact Hanswer | compute_eq].
Defined.


Lemma shared_alone_is_not_found_witness :
  FormRow.shared shared_form = true
  ∧ _filtered_or_shared_qs the_forms (own_forms the_forms) 2
    = inl (Http404 "No data matches with given query.").
Proof.
  split; [reflexivity |].
  apply (shared_alone_is_not_found the_forms (own_forms the_forms) 2).
  - intros row [Hpk _]%list_elem_of_filter. rewrite Hpk. discriminate.
  - intros row Hin Hpk.
    repeat (apply elem_of_cons in Hin as [-> | Hin]);
      [discriminate Hpk | reflexivity | discriminate Hpk |].
    destruct (not_elem_of_nil _ Hin).
Defined.

Lemma shared_data_bypasses_filters_witness :
  ∃ rows, filter_queryset ascii_int the_forms own_forms the_forms
            (Some "3"%string) (Some "health"%string) = inr rows
          ∧ shared_data_form ∈ rows.
Proof.
  apply (shared_data_bypasses_filters ascii_int the_forms own_forms the_forms
           "3" (Some "health"%string) 3 shared_data_form);
    [discriminate | compute_eq | | by_decision | reflexivity | reflexivity].
  intros r [Hpk _]%list_elem_of_filter Hthree. rewrite Hpk in Hthree.
  discriminate Hthree.
Defined.

Lemma filter_queryset_without_pk_witness :
  ∃ rows, filter_queryset ascii_int the_forms own_forms the_forms
            None (Some "water,health"%string) = inr rows
          ∧ private_form ∈ rows.
Proof.
  destruct (filter_queryset_without_pk ascii_int the_forms own_forms the_forms
              None (Some "water,health"%string))
    as (rows & Hrun & _ & Htags); [reflexivity |].
  exists rows. split; [exact Hrun |].
  apply (Htags "water,health"%string); [reflexivity | discriminate |].
  split; [by_decision |].
  exists "health"%string. split; by_decision.
Defined.

Lemma get_object_instance_belongs_witness :
  ∃ pk_ dataid_ form_pk,
    Some "3"%string = Some pk_ ∧ Some "30"%string = Some dataid_
    ∧ ascii_int pk_ = Some form_pk
    ∧ ascii_int dataid_ = Some 30
    ∧ (30, form_pk) ∈ the_instances.
Proof.
  apply (get_object_instance_belongs ascii_int the_instances survey
           (Some "3"%string) (Some "30"%string) 30).
  compute_eq.
Defined.

Lemma handle_profile_totals_witness :
  Storage.bytes_of
    (Storage.handle concat_values (λ _, true) blank_profile 1 storage_tables).1
    10
  = Some 135.
Proof.
  rewrite (handle_profile_totals concat_values (λ _, true) blank_profile 1
             storage_tables 10); [compute_eq | by_decision | by_decision].
Defined.

Lemma handle_skips_complete_witness :
  Storage.bytes_of
    (Storage.handle concat_values (λ _, true) blank_profile 1 storage_tables).1
    11
  = Some 999.
Proof.
  destruct (handle_skips_complete concat_values (λ _, true) blank_profile 1
              storage_tables 11
              {| Storage.attachment_storage_bytes := 999;
                 Storage.metadata :=
                   Some {[ "attachments_counting_status" := JStr "complete" ]} |})
    as [Hprofile _]; [compute_eq | compute_eq |].
  unfold Storage.bytes_of. rewrite Hprofile. reflexivity.
Defined.
End MoreRuns.
